(** * libavcodec/vda.c: the VDA frame queue, embedded and verified

    The C file keeps the decoded frames of one decoder session in a singly
    linked list hanging off [vda_ctx->queue], sorted by presentation
    timestamp.  The decoder callback links a new cell into the list, the
    consumer unlinks the head.

    The embedding follows the C text: memory is a finite map from addresses
    to [vda_frame] cells, pointers are numbers with [NULL = 0], every
    function is a computation in a state-and-error monad over the [world],
    and the loops run on a bound taken from the size of the heap.
    Calls into the platform (CoreVideo, VDADecoder) are logged in a trace;
    what the platform answers is a parameter of the development.

    [ff_vda_create_decoder] touches no frame; it is modelled apart from
    the queue, under "Session creation", with the lock manager's and the
    platform's answers as parameters of their own. *)

From Stdlib Require Import ZArith List Strings.Byte Sorting.Sorted Sorting.Permutation.
From stdpp Require Import gmap strings list fin_maps infinite sorting.

(** ** Data model *)

Abbreviation ptr := N (only parsing).
Abbreviation NULL := 0%N.

(** [OSStatus] is a signed 32-bit integer, [int64_t] a signed 64-bit one.
    vda.c only copies and compares them, so they are plain integers. *)
Abbreviation OSStatus := Z (only parsing).
Abbreviation int64_t := Z (only parsing).

(** The platform's VDADecoder.h is not among the sources; its success
    status is [kVDADecoderNoErr = 0]. *)
Definition kVDADecoderNoErr : OSStatus := 0%Z.

(** The platform's CVPixelBuffer.h is not among the sources; the pixel
    format the callback compares with is the four-character code
    [kCVPixelFormatType_422YpCbCr8 = '2vuy']. *)
Definition kCVPixelFormatType_422YpCbCr8 : Z := 0x32767579%Z.

(** Modelled from the spec: [vda_frame] is declared in libavcodec/vda.h,
    which is not part of the sources at hand.  The fields are the three
    that vda.c reads and writes, the spec's "frame record". *)
Record vda_frame := Frame {
  pts : int64_t;
  cv_buffer : ptr;
  next_frame : ptr
}.

(** Modelled from the spec: [struct vda_context] is declared in
    libavcodec/vda.h, which is not part of the sources at hand.  The fields
    are those vda.c uses, the spec's "decoder session". *)
Record vda_context := VdaContext {
  decoder : ptr;
  queue : ptr;
  queue_mutex : ptr;
  width : Z;
  height : Z;
  format : Z
}.

(** A [CFDictionaryRef] with string keys and SInt64 [CFNumber] values;
    [None] is the NULL dictionary. *)
Abbreviation CFDictionaryRef := (option (gmap string Z)) (only parsing).

(** ** The world: session, heap, mutexes and the log of platform calls *)

Inductive event :=
| EvRetain (image_buffer : ptr)
| EvRelease (image_buffer : ptr)
| EvDecoderDecode (dec : ptr) (flags : Z) (coded_frame : list byte)
                  (user_info : option (gmap string Z))
| EvDecoderDestroy (dec : ptr).

Record world := World {
  ctx : vda_context;
  frames : gmap N vda_frame;
  mutexes : gmap N bool;
  trace : list event
}.

(** What the environment answers.  The status of a platform call and the
    success of an allocation may depend on everything that happened before,
    so these answers take the world they are asked in. *)
Class Platform := {
  av_malloc_ok : world -> bool;
  CVPixelBufferGetPixelFormatType : ptr -> Z;
  VDADecoderDecode : world -> ptr -> Z -> list byte -> option (gmap string Z) -> OSStatus;
  VDADecoderDestroy : world -> ptr -> OSStatus
}.

(** ** The monad of C computations *)

Inductive result (A : Type) :=
| Ok (a : A) (w : world)
| Fault       (* undefined behaviour: a NULL or dangling pointer is used *)
| Blocked     (* the thread waits for a mutex that is held *)
| OutOfFuel.  (* a loop ran past its bound *)
Arguments Ok {A} a w.
Arguments Fault {A}.
Arguments Blocked {A}.
Arguments OutOfFuel {A}.

Definition M (A : Type) : Type := world -> result A.

Definition ret {A} (a : A) : M A := fun w => Ok a w.

Definition bind {A B} (m : M A) (k : A -> M B) : M B := fun w =>
  match m w with
  | Ok a w' => k a w'
  | Fault => Fault
  | Blocked => Blocked
  | OutOfFuel => OutOfFuel
  end.

Notation "'let*' x ':=' m 'in' k" := (bind m (fun x => k))
  (at level 10, x name, m at level 100, k at level 200).
Notation "m '>>' k" := (bind m (fun _ => k))
  (at level 90, right associativity).

Definition fault {A} : M A := fun _ => Fault.
Definition out_of_fuel {A} : M A := fun _ => OutOfFuel.

(** *** Register-level accessors *)

Definition with_ctx (c : vda_context) (w : world) : world :=
  World c (frames w) (mutexes w) (trace w).
Definition with_frames (h : gmap N vda_frame) (w : world) : world :=
  World (ctx w) h (mutexes w) (trace w).
Definition with_mutexes (m : gmap N bool) (w : world) : world :=
  World (ctx w) (frames w) m (trace w).
Definition with_trace (t : list event) (w : world) : world :=
  World (ctx w) (frames w) (mutexes w) t.

Definition get_ctx : M vda_context := fun w => Ok (ctx w) w.
Definition emit (e : event) : M unit := fun w => Ok tt (with_trace (trace w ++ [e]) w).

(** [vda_ctx->queue = q], [vda_ctx->queue_mutex = m] *)
Definition set_queue (q : ptr) : M unit := fun w =>
  let c := ctx w in
  Ok tt (with_ctx (VdaContext (decoder c) q (queue_mutex c) (width c) (height c) (format c)) w).
Definition set_queue_mutex (m : ptr) : M unit := fun w =>
  let c := ctx w in
  Ok tt (with_ctx (VdaContext (decoder c) (queue c) m (width c) (height c) (format c)) w).

(** *** Memory: [p->field] and [p->field = v] on frame cells *)

Definition load (p : ptr) : M vda_frame := fun w =>
  if decide (p = NULL) then Fault
  else match frames w !! p with
       | Some f => Ok f w
       | None => Fault
       end.

Definition store (p : ptr) (upd : vda_frame -> vda_frame) : M unit := fun w =>
  if decide (p = NULL) then Fault
  else match frames w !! p with
       | Some f => Ok tt (with_frames (<[p := upd f]> (frames w)) w)
       | None => Fault
       end.

Definition read_pts (p : ptr) : M Z := let* f := load p in ret (pts f).
Definition read_cv_buffer (p : ptr) : M ptr := let* f := load p in ret (cv_buffer f).
Definition read_next_frame (p : ptr) : M ptr := let* f := load p in ret (next_frame f).

Definition write_pts (p : ptr) (v : Z) : M unit :=
  store p (fun f => Frame v (cv_buffer f) (next_frame f)).
Definition write_cv_buffer (p : ptr) (v : ptr) : M unit :=
  store p (fun f => Frame (pts f) v (next_frame f)).
Definition write_next_frame (p : ptr) (v : ptr) : M unit :=
  store p (fun f => Frame (pts f) (cv_buffer f) v).

(** The bound the loops run on: a NULL-terminated chain visits every cell
    of the heap at most once. *)
Definition loop_bound : M nat := fun w => Ok (S (size (frames w))) w.

Section Code.
Context `{Platform}.

(** [av_mallocz(sizeof(vda_frame))]: NULL when the allocator fails, else a
    zeroed cell at an address that is neither NULL nor in use. *)
Definition av_mallocz : M ptr := fun w =>
  if av_malloc_ok w then
    let p := fresh ({[NULL]} ∪ dom (frames w)) in
    Ok p (with_frames (<[p := Frame 0 NULL NULL]> (frames w)) w)
  else Ok NULL w.

(** [av_freep(&frame)] on a frame cell: the cell is given back. *)
Definition av_free (p : ptr) : M unit := fun w =>
  if decide (p = NULL) then Ok tt w
  else match frames w !! p with
       | Some _ => Ok tt (with_frames (delete p (frames w)) w)
       | None => Fault
       end.

(** *** CoreVideo reference counting, as logged calls *)

Definition CVPixelBufferRetain (b : ptr) : M ptr := emit (EvRetain b) >> ret b.
Definition CVPixelBufferRelease (b : ptr) : M unit := emit (EvRelease b).

(** *** pthread mutexes: [mutexes w !! m = Some locked]

    Locking a held mutex waits; in a run of one thread nobody will release
    it, so the run ends as [Blocked].  POSIX leaves the use of a pointer
    that is no mutex, and the unlocking of a mutex that is not locked,
    undefined: [Fault]. *)

Definition pthread_mutex_lock (m : ptr) : M Z := fun w =>
  match mutexes w !! m with
  | Some false => Ok 0%Z (with_mutexes (<[m := true]> (mutexes w)) w)
  | Some true => Blocked
  | None => Fault
  end.

Definition pthread_mutex_unlock (m : ptr) : M Z := fun w =>
  match mutexes w !! m with
  | Some true => Ok 0%Z (with_mutexes (<[m := false]> (mutexes w)) w)
  | Some false => Fault
  | None => Fault
  end.

Inductive AVLockOp := AV_LOCK_CREATE | AV_LOCK_OBTAIN | AV_LOCK_RELEASE | AV_LOCK_DESTROY.

(** [!!x] of C *)
Definition notnot (x : Z) : Z := if decide (x = 0%Z) then 0%Z else 1%Z.

(** vda.c:32 [vda_lock_operation(&vda_ctx->queue_mutex, op)].  The only
    mutex vda.c passes is the session's, so [*mtx] is [queue_mutex]. *)
Definition vda_lock_operation (op : AVLockOp) : M Z :=
  match op with
  | AV_LOCK_CREATE => fun w =>
      if av_malloc_ok w then
        let m := fresh ({[NULL]} ∪ dom (mutexes w)) in
        (set_queue_mutex m >> ret (notnot 0%Z))
          (with_mutexes (<[m := false]> (mutexes w)) w)
      else (set_queue_mutex NULL >> ret 1%Z) w
  | AV_LOCK_OBTAIN =>
      let* c := get_ctx in
      let* r := pthread_mutex_lock (queue_mutex c) in
      ret (notnot r)
  | AV_LOCK_RELEASE =>
      let* c := get_ctx in
      let* r := pthread_mutex_unlock (queue_mutex c) in
      ret (notnot r)
  | AV_LOCK_DESTROY => fun w =>
      match mutexes w !! queue_mutex (ctx w) with
      | Some false =>
          (set_queue_mutex NULL >> ret 0%Z)
            (with_mutexes (delete (queue_mutex (ctx w)) (mutexes w)) w)
      | _ => Fault
      end
  end.

(** *** The opaque token *)

Definition FF_VDA_DECODER_PTS_KEY : string := "FF_VDA_DECODER_PTS_KEY".

(** vda.c:54 *)
Definition vda_dictionary_with_pts (i_pts : int64_t) : CFDictionaryRef :=
  Some {[ FF_VDA_DECODER_PTS_KEY := i_pts ]}.

(** vda.c:69 *)
Definition vda_pts_from_dictionary (user_info : CFDictionaryRef) : int64_t :=
  match user_info with
  | None => 0%Z
  | Some d =>
      let pts := d !! FF_VDA_DECODER_PTS_KEY in
      match pts with
      | Some v => v
      | None => 0%Z
      end
  end.

(** *** The queue *)

(** vda.c:239 *)
Definition ff_vda_release_vda_frame (frame : ptr) : M unit :=
  if decide (frame ≠ NULL) then
    let* b := read_cv_buffer frame in
    CVPixelBufferRelease b >> av_free frame
  else ret tt.

(** vda.c:92, the [while (vda_ctx->queue != NULL)] loop *)
Fixpoint vda_clear_queue_loop (fuel : nat) : M unit :=
  match fuel with
  | O => out_of_fuel
  | S fuel' =>
      let* c := get_ctx in
      if decide (queue c ≠ NULL) then
        let top_frame := queue c in
        let* nx := read_next_frame top_frame in
        set_queue nx >>
        ff_vda_release_vda_frame top_frame >>
        vda_clear_queue_loop fuel'
      else ret tt
  end.

(** vda.c:86 *)
Definition vda_clear_queue : M unit :=
  vda_lock_operation AV_LOCK_OBTAIN >>
  (let* n := loop_bound in vda_clear_queue_loop n) >>
  vda_lock_operation AV_LOCK_RELEASE >>
  ret tt.

(** [new_frame->next_frame = nx; queue_walker->next_frame = new_frame] *)
Definition link_after (queue_walker new_frame nx : ptr) : M unit :=
  write_next_frame new_frame nx >>
  write_next_frame queue_walker new_frame.

(** [!p || (new_frame->pts < p->pts)], with C's short circuit *)
Definition goes_before (new_frame p : ptr) : M bool :=
  if decide (p = NULL) then ret true
  else
    let* a := read_pts new_frame in
    let* b := read_pts p in
    ret (a <? b)%Z.

(** vda.c:140, the [while (1)] walk *)
Fixpoint vda_queue_walk (fuel : nat) (new_frame queue_walker : ptr) : M unit :=
  match fuel with
  | O => out_of_fuel
  | S fuel' =>
      let* nx := read_next_frame queue_walker in
      let* stop := goes_before new_frame nx in
      if (stop : bool) then link_after queue_walker new_frame nx
      else vda_queue_walk fuel' new_frame nx
  end.

(** vda.c:104 *)
Definition vda_decoder_callback (user_info : CFDictionaryRef) (status : OSStatus)
    (infoFlags : Z) (image_buffer : ptr) : M unit :=
  if decide (NULL = image_buffer) then ret tt
  else if decide (kCVPixelFormatType_422YpCbCr8 ≠ CVPixelBufferGetPixelFormatType image_buffer)
  then ret tt
  else
    let* new_frame := av_mallocz in
    write_next_frame new_frame NULL >>
    (let* b := CVPixelBufferRetain image_buffer in write_cv_buffer new_frame b) >>
    write_pts new_frame (vda_pts_from_dictionary user_info) >>
    vda_lock_operation AV_LOCK_OBTAIN >>
    (let* c := get_ctx in
     let queue_walker := queue c in
     let* first := goes_before new_frame queue_walker in
     if (first : bool) then
       write_next_frame new_frame queue_walker >>
       set_queue new_frame
     else
       let* n := loop_bound in
       vda_queue_walk n new_frame queue_walker) >>
    vda_lock_operation AV_LOCK_RELEASE >>
    ret tt.

(** vda.c:224 *)
Definition ff_vda_queue_pop : M ptr :=
  let* c := get_ctx in
  if decide (queue c = NULL) then ret NULL
  else
    vda_lock_operation AV_LOCK_OBTAIN >>
    let* c := get_ctx in
    let top_frame := queue c in
    let* nx := read_next_frame top_frame in
    set_queue nx >>
    vda_lock_operation AV_LOCK_RELEASE >>
    ret top_frame.

(** *** The session *)

(** vda.c:206 *)
Definition ff_vda_destroy_decoder : M Z :=
  let* c := get_ctx in
  let* status :=
    (if decide (decoder c ≠ NULL) then
       fun w => (emit (EvDecoderDestroy (decoder c)) >> ret (VDADecoderDestroy w (decoder c))) w
     else ret kVDADecoderNoErr) in
  vda_clear_queue >>
  let* c := get_ctx in
  (if decide (queue_mutex c ≠ NULL) then vda_lock_operation AV_LOCK_DESTROY >> ret tt
   else ret tt) >>
  if decide (kVDADecoderNoErr ≠ status) then ret status
  else ret 0%Z.

(** vda.c:248.  [CFDataCreate] copies [bitstream_size] bytes of [bitstream]. *)
Definition ff_vda_decoder_decode (bitstream : list byte) (bitstream_size : Z)
    (frame_pts : int64_t) : M Z :=
  let coded_frame := take (Z.to_nat bitstream_size) bitstream in
  let user_info := vda_dictionary_with_pts frame_pts in
  let* c := get_ctx in
  let* status :=
    (fun w => (emit (EvDecoderDecode (decoder c) 0 coded_frame user_info) >>
               ret (VDADecoderDecode w (decoder c) 0%Z coded_frame user_info)) w) in
  if decide (kVDADecoderNoErr ≠ status) then ret status
  else ret 0%Z.

(** *** Harness of the testable properties

    The spec states its ordering properties on "the sequence obtained by
    repeatedly calling popMin until empty" and on scripts of callbacks and
    pops.  These are not functions of vda.c; they drive the functions
    above. *)

(** One frame record as a consumer sees it: where it lives, what it holds. *)
Record record := Rec {
  r_addr : ptr;
  r_pts : int64_t;
  r_buf : ptr
}.

Fixpoint pop_until_empty (fuel : nat) : M (list record) :=
  match fuel with
  | O => out_of_fuel
  | S fuel' =>
      let* p := ff_vda_queue_pop in
      if decide (p = NULL) then ret []
      else
        let* f := load p in
        let* rest := pop_until_empty fuel' in
        ret (Rec p (pts f) (cv_buffer f) :: rest)
  end.

Definition pop_all : M (list record) :=
  let* n := loop_bound in pop_until_empty n.

Inductive op :=
| OpCallback (user_info : CFDictionaryRef) (status : OSStatus) (infoFlags : Z)
             (image_buffer : ptr)
| OpPop           (* the consumer pops a frame and keeps it *)
| OpPopRelease.   (* the consumer pops a frame, shows it and releases it *)

Definition run_op (o : op) : M unit :=
  match o with
  | OpCallback user_info status infoFlags image_buffer =>
      vda_decoder_callback user_info status infoFlags image_buffer
  | OpPop => ff_vda_queue_pop >> ret tt
  | OpPopRelease => let* p := ff_vda_queue_pop in ff_vda_release_vda_frame p
  end.

Fixpoint run_ops (os : list op) : M unit :=
  match os with
  | [] => ret tt
  | o :: os' => run_op o >> run_ops os'
  end.

(** The decoder hands back the frame submitted with [frame_pts]: the
    callback arrives with the token [ff_vda_decoder_decode] built. *)
Definition deliver (frame : Z * ptr) : op :=
  OpCallback (vda_dictionary_with_pts frame.1) kVDADecoderNoErr 0%Z frame.2.

(** An image the callback accepts. *)
Definition accepted_image (image_buffer : ptr) : Prop :=
  image_buffer ≠ NULL ∧
  CVPixelBufferGetPixelFormatType image_buffer = kCVPixelFormatType_422YpCbCr8.

End Code.

(** ** Abstraction: the list a chain of cells stands for *)

(** [chain h p l]: from [p], following [next_frame] in [h], one meets the
    cells of [l] in order and then NULL. *)
Fixpoint chain (h : gmap N vda_frame) (p : ptr) (l : list record) : Prop :=
  match l with
  | [] => p = NULL
  | r :: l' =>
      p = r_addr r ∧ p ≠ NULL ∧
      ∃ nx, h !! p = Some (Frame (r_pts r) (r_buf r) nx) ∧ chain h nx l'
  end.

(** A session in its Created state: the queue is a well-formed chain and
    the guard exists and is free. *)
Definition session_ok (w : world) (l : list record) : Prop :=
  chain (frames w) (queue (ctx w)) l ∧
  mutexes w !! queue_mutex (ctx w) = Some false.

Definition head_addr (l : list record) : ptr :=
  match l with
  | [] => NULL
  | r :: _ => r_addr r
  end.

(** What the callback's walk computes, on lists. *)
Fixpoint insert_record (r : record) (l : list record) : list record :=
  match l with
  | [] => [r]
  | x :: l' =>
      if (r_pts r <? r_pts x)%Z then r :: x :: l'
      else x :: insert_record r l'
  end.

Definition ordered (l : list record) : Prop :=
  StronglySorted Z.le (map r_pts l).

(** The heap after the cells of [l] were given back, head first. *)
Definition release_cells (l : list record) (h : gmap N vda_frame) : gmap N vda_frame :=
  fold_left (fun h r => delete (r_addr r) h) l h.

Definition release_events (l : list record) : list event :=
  map (fun r => EvRelease (r_buf r)) l.

(** What a record carries, apart from where it lives. *)
Definition payload (r : record) : Z * N := (r_pts r, r_buf r).

(** The address [av_mallocz] hands out. *)
Definition new_addr (w : world) : ptr := fresh ({[NULL]} ∪ dom (frames w)).

(** What [ff_vda_destroy_decoder] asks of the platform, and what it is told. *)
Definition destroy_events (w : world) : list event :=
  if decide (decoder (ctx w) ≠ NULL) then [EvDecoderDestroy (decoder (ctx w))] else [].

Definition destroy_status `{Platform} (w : world) : OSStatus :=
  if decide (decoder (ctx w) ≠ NULL) then VDADecoderDestroy w (decoder (ctx w))
  else kVDADecoderNoErr.

(** What the platform answers to the decode request of
    [ff_vda_decoder_decode] in world [w]. *)
Definition decode_answer `{Platform} (w : world) (bitstream : list byte)
    (bitstream_size frame_pts : Z) : OSStatus :=
  VDADecoderDecode w (decoder (ctx w)) 0%Z
    (take (Z.to_nat bitstream_size) bitstream) (vda_dictionary_with_pts frame_pts).

(** [vda_ctx->queue = q] as a function on worlds. *)
Definition queue_set (q : ptr) (w : world) : world :=
  with_ctx (VdaContext (decoder (ctx w)) q (queue_mutex (ctx w))
                       (width (ctx w)) (height (ctx w)) (format (ctx w))) w.

(** The record the callback builds in world [w]. *)
Definition new_record (w : world) (user_info : CFDictionaryRef) (image_buffer : ptr) : record :=
  Rec (new_addr w) (vda_pts_from_dictionary user_info) image_buffer.

(** ** Concrete platforms and sessions, for running the model *)

(** [kVDADecoderHardwareNotSupportedErr] and the H.264 source format
    ['avc1'] a session is configured with. *)
Definition kVDADecoderHardwareNotSupportedErr : OSStatus := (-12470)%Z.
Definition avc1 : Z := 0x61766331%Z.

(** Every image is 2vuy, memory never runs out, the decoder accepts every
    frame and its teardown fails. *)
Definition steady_platform : Platform := {|
  av_malloc_ok := fun _ => true;
  CVPixelBufferGetPixelFormatType := fun _ => kCVPixelFormatType_422YpCbCr8;
  VDADecoderDecode := fun _ _ _ _ _ => kVDADecoderNoErr;
  VDADecoderDestroy := fun _ _ => kVDADecoderHardwareNotSupportedErr
|}.

(** As above, but no allocation succeeds. *)
Definition exhausted_platform : Platform := {|
  av_malloc_ok := fun _ => false;
  CVPixelBufferGetPixelFormatType := fun _ => kCVPixelFormatType_422YpCbCr8;
  VDADecoderDecode := fun _ _ _ _ _ => kVDADecoderNoErr;
  VDADecoderDestroy := fun _ _ => kVDADecoderNoErr
|}.

(** A session right after a successful create: decoder handle 7, guard at
    address 1, no frame yet. *)
Definition created_session : world :=
  World (VdaContext 7 NULL 1 640 480 avc1) ∅ {[ 1%N := false ]} [].

(** A session holding three frames, two of them with timestamp 50. *)
Definition busy_session : world :=
  World (VdaContext 7 2 1 640 480 avc1)
        (<[2%N := Frame 50 11 4]> (<[4%N := Frame 50 13 3]> (<[3%N := Frame 100 12 NULL]> ∅)))
        {[ 1%N := false ]} [EvRetain 12; EvRetain 11; EvRetain 13].

Definition busy_records : list record :=
  [Rec 2 50 11; Rec 4 50 13; Rec 3 100 12].

(** One hundred frames, delivered out of order: frame [i] carries
    timestamp [37 i mod 101] and image [i]. *)
Definition hundred_frames : list (Z * N) :=
  map (fun i : nat => ((37 * Z.of_nat i) mod 101, N.of_nat i)%Z) (seq 1 100).

(** An empty queue while another thread holds the guard. *)
Definition guarded_session : world :=
  World (VdaContext 7 NULL 1 640 480 avc1) ∅ {[ 1%N := true ]} [].

(** A session whose decoder was never created. *)
Definition headless_session : world :=
  World (VdaContext NULL 2 1 640 480 avc1) (frames busy_session)
        {[ 1%N := false ]} [].

(** What a computation returned, if it returned. *)
Definition value_of {A} (r : result A) : option A :=
  match r with
  | Ok a _ => Some a
  | _ => None
  end.

(** A script that mixes deliveries, a dropped callback and pops. *)
Definition mixed_script : list op :=
  [deliver (100%Z, 10%N); deliver (50%Z, 11%N); OpPop; deliver (70%Z, 12%N);
   OpCallback None 0%Z 0%Z NULL; deliver (50%Z, 13%N); OpPopRelease;
   deliver (20%Z, 14%N); deliver (70%Z, 15%N)].

(** ** Session creation

    [ff_vda_create_decoder] (vda.c:157) registers the lock manager, creates
    the guard of the queue, packs the configuration and asks the platform
    for a decoder. *)

(** The four entries [ff_vda_create_decoder] puts into [config_info], under
    the platform's keys [kVDADecoderConfiguration_Height], [_Width],
    [_SourceFormat] and [_avcCData]. *)
Record decoder_config := Config {
  cfg_height : Z;
  cfg_width : Z;
  cfg_source_format : Z;
  cfg_avcC : list byte
}.

(** Modelled from the spec: [av_lockmgr_register] is defined in
    libavcodec/utils.c, which is not among the sources; the spec treats the
    registration of the lock manager as a capability of the environment.
    Its result is a parameter here, and so is the platform's answer to
    [VDADecoderCreate]: a status and the value it leaves in
    [vda_ctx->decoder]. *)
Class Registrar := {
  av_lockmgr_register : world -> Z;
  VDADecoderCreate : world -> decoder_config -> OSStatus * ptr
}.

(** [vda_ctx->decoder = d], written by the platform through [&vda_ctx->decoder] *)
Definition set_decoder (d : ptr) : M unit := fun w =>
  let c := ctx w in
  Ok tt (with_ctx (VdaContext d (queue c) (queue_mutex c) (width c) (height c) (format c)) w).

Section Create.
Context `{Platform} `{Registrar}.

(** vda.c:157.  The result of [vda_lock_operation] is not looked at. *)
Definition ff_vda_create_decoder (extradata : list byte) (extradata_size : Z) : M Z :=
  let* registered := (fun w => Ok (av_lockmgr_register w) w) in
  if decide (registered ≠ 0%Z) then ret (-1)%Z
  else
    vda_lock_operation AV_LOCK_CREATE >>
    let* c := get_ctx in
    let config_info :=
      Config (height c) (width c) (format c) (take (Z.to_nat extradata_size) extradata) in
    let* answer := (fun w => Ok (VDADecoderCreate w config_info) w) in
    set_decoder answer.2 >>
    if decide (kVDADecoderNoErr ≠ answer.1) then ret answer.1
    else ret 0%Z.

(** The address [AV_LOCK_CREATE] puts the guard at, and the world with the
    guard in place. *)
Definition new_guard (w : world) : ptr := fresh ({[NULL]} ∪ dom (mutexes w)).

Definition with_guard (w : world) : world :=
  World (VdaContext (decoder (ctx w)) (queue (ctx w)) (new_guard w)
                    (width (ctx w)) (height (ctx w)) (format (ctx w)))
        (frames w) (<[new_guard w := false]> (mutexes w)) (trace w).

(** The world when the guard could not be allocated. *)
Definition without_guard (w : world) : world :=
  World (VdaContext (decoder (ctx w)) (queue (ctx w)) NULL
                    (width (ctx w)) (height (ctx w)) (format (ctx w)))
        (frames w) (mutexes w) (trace w).

(** What [ff_vda_create_decoder] asks of the platform. *)
Definition create_request (w : world) (extradata : list byte) (extradata_size : Z)
    : decoder_config :=
  Config (height (ctx w)) (width (ctx w)) (format (ctx w))
         (take (Z.to_nat extradata_size) extradata).

(** The session once the platform has answered with [answer]. *)
Definition with_decoder (answer : OSStatus * ptr) (w : world) : world :=
  World (VdaContext answer.2 (queue (ctx w)) (queue_mutex (ctx w))
                    (width (ctx w)) (height (ctx w)) (format (ctx w)))
        (frames w) (mutexes w) (trace w).

End Create.

(** ** Bookkeeping for the further properties *)

(** The images retained, and the images released, in a log of platform
    calls, in the order of the calls. *)
Definition retained (t : list event) : list N :=
  omap (fun e => match e with EvRetain b => Some b | _ => None end) t.

Definition released (t : list event) : list N :=
  omap (fun e => match e with EvRelease b => Some b | _ => None end) t.

(** Everything of a session but the head of its queue. *)
Definition same_config (c c' : vda_context) : Prop :=
  decoder c = decoder c' ∧ queue_mutex c = queue_mutex c' ∧
  width c = width c' ∧ height c = height c' ∧ format c = format c'.

(** The world after [ff_vda_queue_pop] and [ff_vda_release_vda_frame] took
    the head [r] off a queue whose next record lives at [nx]. *)
Definition released_head (r : record) (nx : ptr) (w : world) : world :=
  World (ctx (queue_set nx w)) (delete (r_addr r) (frames w)) (mutexes w)
        (trace w ++ [EvRelease (r_buf r)]).

(** The books of a session that started in [w0] with an empty queue and
    now holds [l]: the cells of [l] were free in [w0], every other cell is
    as in [w0], and every image retained since is either released or still
    queued. *)
Definition tidy (w0 w : world) (l : list record) : Prop :=
  session_ok w l ∧
  (∀ a, a ∈ map r_addr l → frames w0 !! a = None) ∧
  (∀ a, a ∉ map r_addr l → frames w !! a = frames w0 !! a) ∧
  ∃ t, trace w = trace w0 ++ t ∧ retained t ≡ₚ released t ++ map r_buf l.

(** The timestamps of a list of delivered frames that equal [t], in order. *)
Definition with_pts (t : Z) (fs : list (Z * N)) : list (Z * N) :=
  filter (fun f => f.1 = t) fs.

(** A context before create: no decoder, no queue, no guard. *)
Definition blank_session : world :=
  World (VdaContext NULL NULL NULL 640 480 avc1) ∅ ∅ [].

(** The lock manager registers and the platform hands out decoder 7. *)
Definition willing_registrar : Registrar := {|
  av_lockmgr_register := fun _ => 0%Z;
  VDADecoderCreate := fun _ _ => (kVDADecoderNoErr, 7%N)
|}.

(** The lock manager cannot be registered. *)
Definition refusing_registrar : Registrar := {|
  av_lockmgr_register := fun _ => (-1)%Z;
  VDADecoderCreate := fun _ _ => (kVDADecoderNoErr, 7%N)
|}.

(** Deliveries and pop-and-release steps only. *)
Definition tidy_script : list op :=
  [deliver (100%Z, 10%N); deliver (50%Z, 11%N); OpPopRelease; deliver (70%Z, 12%N);
   OpCallback None 0%Z 0%Z NULL; OpPopRelease; deliver (50%Z, 13%N)].

(** Frames with repeated timestamps. *)
Definition repeated_frames : list (Z * N) :=
  [(50, 10%N); (20, 11%N); (50, 12%N); (20, 13%N); (50, 14%N); (30, 15%N)]%Z.

(** ** Chains *)

Section Chains.
Implicit Types (h : gmap N vda_frame) (p : N) (l : list record) (r : record).

Lemma chain_head h p l : chain h p l → p = head_addr l.
Proof. destruct l as [|r l]; simpl; [done | by intros [-> _]]. Qed.

Lemma chain_cons_inv h p r l :
  chain h p (r :: l) →
  p = r_addr r ∧ p ≠ NULL ∧
  h !! p = Some (Frame (r_pts r) (r_buf r) (head_addr l)) ∧
  chain h (head_addr l) l.
Proof.
  simpl. intros (Hp & Hn & nx & Hl & Hc).
  pose proof (chain_head _ _ _ Hc) as ->. done.
Qed.

Lemma chain_cons_intro h r l :
  r_addr r ≠ NULL →
  h !! r_addr r = Some (Frame (r_pts r) (r_buf r) (head_addr l)) →
  chain h (head_addr l) l →
  chain h (r_addr r) (r :: l).
Proof. intros ? ? ?. simpl. eauto 6. Qed.

(** A heap determines the list a pointer stands for. *)
Lemma chain_functional h p l1 l2 : chain h p l1 → chain h p l2 → l1 = l2.
Proof.
  revert p l2. induction l1 as [|r1 l1 IH]; intros p [|r2 l2]; simpl.
  - done.
  - intros -> (_ & Hn & _). done.
  - intros (_ & Hn & _) ->. done.
  - intros (Ha1 & _ & nx1 & Hl1 & Hc1) (Ha2 & _ & nx2 & Hl2 & Hc2).
    rewrite Hl1 in Hl2. injection Hl2 as Ht Hb Hnx. subst nx2.
    f_equal; [| by eapply IH].
    destruct r1, r2; simpl in *; congruence.
Qed.

Lemma chain_suffix h p l1 l2 :
  chain h p (l1 ++ l2) → chain h (head_addr l2) l2.
Proof.
  revert p. induction l1 as [|r l1 IH]; intros p; simpl.
  - intros Hc. by rewrite <- (chain_head _ _ _ Hc).
  - intros (_ & _ & nx & _ & Hc). eauto.
Qed.

(** A chain that ends in NULL never meets a cell twice. *)
Lemma chain_NoDup h p l : chain h p l → NoDup (map r_addr l).
Proof.
  revert p. induction l as [|r l IH]; intros p Hc; simpl.
  - constructor.
  - pose proof Hc as (Hp & Hn & nx & Hl & Hc').
    constructor; [| by eapply IH].
    intros Hin. apply list_elem_of_fmap in Hin as (r' & Ha & Hin).
    apply list_elem_of_split in Hin as (l1 & l2 & ->).
    pose proof (chain_suffix _ _ (r :: l1) (r' :: l2) Hc) as Hs.
    simpl head_addr in Hs. rewrite <- Ha, <- Hp in Hs.
    pose proof (chain_functional _ _ _ _ Hc Hs) as Heq.
    apply (f_equal length) in Heq. simpl in Heq.
    rewrite length_app in Heq. simpl in Heq. lia.
Qed.

Lemma chain_lookup h p l r :
  chain h p l → r ∈ l →
  r_addr r ≠ NULL ∧ ∃ nx, h !! r_addr r = Some (Frame (r_pts r) (r_buf r) nx).
Proof.
  revert p. induction l as [|x l IH]; intros p Hc Hin.
  - by apply not_elem_of_nil in Hin.
  - destruct Hc as (Hp & Hn & nx & Hl & Hc).
    apply elem_of_cons in Hin as [-> | Hin]; [| by eapply IH].
    subst p. eauto.
Qed.

Lemma chain_addr_not_null h p l : chain h p l → NULL ∉ map r_addr l.
Proof.
  intros Hc Hin. apply list_elem_of_fmap in Hin as (r & Ha & Hin).
  destruct (chain_lookup _ _ _ _ Hc Hin) as [Hn _]. congruence.
Qed.

Lemma chain_addr_in_dom h p l a : chain h p l → a ∈ map r_addr l → is_Some (h !! a).
Proof.
  intros Hc Hin. apply list_elem_of_fmap in Hin as (r & -> & Hin).
  destruct (chain_lookup _ _ _ _ Hc Hin) as (_ & nx & Hl). eauto.
Qed.

(** The bound the loops run on is enough. *)
Lemma chain_length h p l : chain h p l → length l ≤ size h.
Proof.
  intros Hc.
  rewrite <- (length_map r_addr l).
  rewrite <- (size_list_to_set (C := gset N) _ (chain_NoDup _ _ _ Hc)).
  rewrite <- size_dom. apply subseteq_size.
  intros a Ha. apply elem_of_list_to_set in Ha.
  apply elem_of_dom. by eapply chain_addr_in_dom.
Qed.

(** Writes outside a chain leave it alone. *)
Lemma chain_frame h h' p l :
  (∀ a, a ∈ map r_addr l → h' !! a = h !! a) → chain h p l → chain h' p l.
Proof.
  revert p. induction l as [|r l IH]; intros p Hsame; simpl; [done |].
  intros (Hp & Hn & nx & Hl & Hc). subst p.
  split; [done |]. split; [done |]. exists nx. split.
  - rewrite Hsame; [done |]. simpl. apply elem_of_cons. by left.
  - apply IH; [| done]. intros a Ha. apply Hsame. simpl. apply elem_of_cons. by right.
Qed.

Lemma chain_insert_other h p l a f :
  a ∉ map r_addr l → chain h p l → chain (<[a := f]> h) p l.
Proof.
  intros Ha. apply chain_frame. intros b Hb.
  apply lookup_insert_ne. intros ->. done.
Qed.

Lemma chain_delete_other h p l a :
  a ∉ map r_addr l → chain h p l → chain (delete a h) p l.
Proof.
  intros Ha. apply chain_frame. intros b Hb.
  apply lookup_delete_ne. intros ->. done.
Qed.

End Chains.

(** ** Sorted insertion on lists *)

Section InsertRecord.
Implicit Types (l : list record) (r : record).

Lemma insert_record_perm r l : insert_record r l ≡ₚ r :: l.
Proof.
  induction l as [|x l IH]; simpl; [done |].
  destruct (r_pts r <? r_pts x)%Z; [done |].
  rewrite IH. apply Permutation_swap.
Qed.

Lemma insert_record_length r l : length (insert_record r l) = S (length l).
Proof. by rewrite (Permutation_length (insert_record_perm r l)). Qed.

(** The new record lands behind every record that is not later than it and
    in front of every record that is. *)
Lemma insert_record_split r l :
  ordered l →
  ∃ l1 l2, l = l1 ++ l2 ∧ insert_record r l = l1 ++ r :: l2 ∧
           Forall (λ x, (r_pts x ≤ r_pts r)%Z) l1 ∧
           Forall (λ x, (r_pts r < r_pts x)%Z) l2.
Proof.
  unfold ordered. induction l as [|x l IH]; simpl; intros Hs.
  - exists [], []. repeat split; constructor.
  - apply StronglySorted_inv in Hs as [Hs Hx].
    destruct (Z.ltb_spec (r_pts r) (r_pts x)) as [Hlt | Hge].
    + exists [], (x :: l). repeat split; [constructor |].
      constructor; [done |].
      rewrite List.Forall_map in Hx. eapply Forall_impl; [exact Hx |].
      simpl. intros y Hy. lia.
    + destruct (IH Hs) as (l1 & l2 & -> & -> & H1 & H2).
      exists (x :: l1), l2. repeat split; [| done].
      by constructor.
Qed.

Lemma insert_record_ordered r l : ordered l → ordered (insert_record r l).
Proof.
  intros Hs. destruct (insert_record_split r l Hs) as (l1 & l2 & -> & -> & H1 & H2).
  unfold ordered in *. rewrite map_app in *. simpl.
  induction l1 as [|x l1 IH]; simpl in *.
  - constructor; [done |]. rewrite List.Forall_map. eapply Forall_impl; [exact H2 |].
    simpl. intros y Hy. lia.
  - apply StronglySorted_inv in Hs as [Hs Hx].
    apply Forall_cons in H1 as [Hxr H1].
    constructor; [by apply IH |].
    apply Forall_app in Hx as [Hx1 Hx2].
    apply Forall_app. split; [done |]. by constructor.
Qed.

(** The head of an ordered list holds its smallest timestamp. *)
Lemma ordered_head_min r l x : ordered (r :: l) → x ∈ r :: l → (r_pts r ≤ r_pts x)%Z.
Proof.
  unfold ordered. simpl. intros Hs Hin.
  apply StronglySorted_inv in Hs as [_ Hall].
  apply elem_of_cons in Hin as [-> | Hin]; [lia |].
  rewrite Forall_forall in Hall. apply Hall.
  change (r_pts x ∈ r_pts <$> l). by apply list_elem_of_fmap_2.
Qed.

Lemma ordered_tail r l : ordered (r :: l) → ordered l.
Proof. unfold ordered. simpl. intros Hs. by apply StronglySorted_inv in Hs as [? _]. Qed.

End InsertRecord.

(** ** Running the primitives *)

Lemma world_eta w : World (ctx w) (frames w) (mutexes w) (trace w) = w.
Proof. by destruct w. Qed.

Lemma load_eq w p f : p ≠ NULL → frames w !! p = Some f → load p w = Ok f w.
Proof. intros Hn Hl. unfold load. rewrite decide_False by done. by rewrite Hl. Qed.

Lemma store_eq w p f upd :
  p ≠ NULL → frames w !! p = Some f →
  store p upd w = Ok tt (with_frames (<[p := upd f]> (frames w)) w).
Proof. intros Hn Hl. unfold store. rewrite decide_False by done. by rewrite Hl. Qed.

Lemma bind_Ok {A B} (m : M A) (k : A → M B) w a w' :
  m w = Ok a w' → bind m k w = k a w'.
Proof. intros Hm. unfold bind. by rewrite Hm. Qed.

Lemma read_pts_eq w p f :
  p ≠ NULL → frames w !! p = Some f → read_pts p w = Ok (pts f) w.
Proof. intros Hn Hl. unfold read_pts. by rewrite (bind_Ok _ _ _ _ _ (load_eq _ _ _ Hn Hl)). Qed.

Lemma read_cv_buffer_eq w p f :
  p ≠ NULL → frames w !! p = Some f → read_cv_buffer p w = Ok (cv_buffer f) w.
Proof. intros Hn Hl. unfold read_cv_buffer. by rewrite (bind_Ok _ _ _ _ _ (load_eq _ _ _ Hn Hl)). Qed.

Lemma read_next_frame_eq w p f :
  p ≠ NULL → frames w !! p = Some f → read_next_frame p w = Ok (next_frame f) w.
Proof. intros Hn Hl. unfold read_next_frame. by rewrite (bind_Ok _ _ _ _ _ (load_eq _ _ _ Hn Hl)). Qed.

(** [run E]: the computation in the goal starts with a step whose outcome
    is the equation [E]; take the step. *)
Ltac run E := rewrite (bind_Ok _ _ _ _ _ E); cbv beta.

Ltac wsimpl :=
  unfold with_frames, with_ctx, with_mutexes, with_trace;
  cbn [ctx frames mutexes trace
       queue decoder queue_mutex width height format pts cv_buffer next_frame].

Lemma relock_id (m : gmap N bool) k :
  m !! k = Some false → <[k := false]> (<[k := true]> m) = m.
Proof. intros Hk. rewrite insert_insert_eq. by apply insert_id. Qed.

(** ** The functions of vda.c on well-formed sessions *)

Section Specs.
Context `{Platform}.
Implicit Types (w : world) (l : list record) (r : record).

Lemma lock_obtain_eq w :
  mutexes w !! queue_mutex (ctx w) = Some false →
  vda_lock_operation AV_LOCK_OBTAIN w =
    Ok 0%Z (with_mutexes (<[queue_mutex (ctx w) := true]> (mutexes w)) w).
Proof.
  intros Hm. unfold vda_lock_operation, bind, get_ctx, pthread_mutex_lock.
  by rewrite Hm.
Qed.

Lemma lock_release_eq w :
  mutexes w !! queue_mutex (ctx w) = Some true →
  vda_lock_operation AV_LOCK_RELEASE w =
    Ok 0%Z (with_mutexes (<[queue_mutex (ctx w) := false]> (mutexes w)) w).
Proof.
  intros Hm. unfold vda_lock_operation, bind, get_ctx, pthread_mutex_unlock.
  by rewrite Hm.
Qed.

Lemma goes_before_null n w : goes_before n NULL w = Ok true w.
Proof. done. Qed.

Lemma goes_before_cell n p w fn fp :
  n ≠ NULL → p ≠ NULL →
  frames w !! n = Some fn → frames w !! p = Some fp →
  goes_before n p w = Ok (pts fn <? pts fp)%Z w.
Proof.
  intros Hn Hp Hln Hlp. unfold goes_before. rewrite decide_False by done.
  run (read_pts_eq _ _ _ Hn Hln). by run (read_pts_eq _ _ _ Hp Hlp).
Qed.

Lemma write_next_frame_eq w p f v :
  p ≠ NULL → frames w !! p = Some f →
  write_next_frame p v w =
    Ok tt (with_frames (<[p := Frame (pts f) (cv_buffer f) v]> (frames w)) w).
Proof. intros Hn Hl. unfold write_next_frame. by rewrite (store_eq _ _ _ _ Hn Hl). Qed.

Lemma link_after_eq w q n nx fq fn :
  q ≠ NULL → n ≠ NULL → q ≠ n →
  frames w !! q = Some fq → frames w !! n = Some fn →
  link_after q n nx w =
    Ok tt (with_frames
             (<[q := Frame (pts fq) (cv_buffer fq) n]>
                (<[n := Frame (pts fn) (cv_buffer fn) nx]> (frames w))) w).
Proof.
  intros Hq Hn Hne Hlq Hln. unfold link_after.
  run (write_next_frame_eq _ _ _ nx Hn Hln).
  erewrite write_next_frame_eq; [done | done |].
  simpl. by rewrite lookup_insert_ne.
Qed.

(** The walk links the new cell where [insert_record] puts it, and writes
    nowhere else than to the new cell and to cells of the chain. *)
Lemma vda_queue_walk_spec l : ∀ fuel w r n t b nx0,
  chain (frames w) (r_addr r) (r :: l) →
  n ≠ NULL → n ∉ map r_addr (r :: l) →
  frames w !! n = Some (Frame t b nx0) →
  length l < fuel →
  ∃ h', vda_queue_walk fuel n (r_addr r) w = Ok tt (with_frames h' w) ∧
        chain h' (r_addr r) (r :: insert_record (Rec n t b) l) ∧
        (∀ a, a ≠ n → a ∉ map r_addr (r :: l) → h' !! a = frames w !! a).
Proof.
  induction l as [|x l IH]; intros fuel w r n t b nx0 Hc Hn Hnin Hln Hfuel.
  - destruct fuel as [|fuel]; [simpl in Hfuel; lia |].
    apply chain_cons_inv in Hc as (_ & Hr & Hlr & _). simpl head_addr in Hlr.
    assert (r_addr r ≠ n) as Hne.
    { intros Heq. apply Hnin. simpl. apply elem_of_cons. by left. }
    eexists. split; [| split].
    + simpl vda_queue_walk.
      run (read_next_frame_eq _ _ _ Hr Hlr). cbn [next_frame].
      run (goes_before_null n w).
      by erewrite link_after_eq.
    + simpl. split; [done |]. split; [done |]. eexists. split.
      { by rewrite lookup_insert_eq. }
      simpl. split; [done |]. split; [done |]. eexists. split; [| done].
      rewrite lookup_insert_ne by done. by rewrite lookup_insert_eq.
    + intros a Han Hanin. simpl in Hanin.
      rewrite !lookup_insert_ne; [done | congruence |].
      intros <-. apply Hanin. apply elem_of_cons. by left.
  - destruct fuel as [|fuel]; [simpl in Hfuel; lia |].
    pose proof (chain_NoDup _ _ _ Hc) as Hnd.
    apply chain_cons_inv in Hc as (_ & Hr & Hlr & Hc). simpl head_addr in Hlr, Hc.
    pose proof Hc as Hcx.
    apply chain_cons_inv in Hcx as (_ & Hx & Hlx & Hcl).
    simpl in Hnd. apply NoDup_cons in Hnd as [Hrnin Hnd].
    assert (r_addr r ≠ n) as Hne.
    { intros Heq. apply Hnin. simpl. apply elem_of_cons. by left. }
    assert (n ∉ map r_addr (x :: l)) as Hnin'.
    { intros Hin. apply Hnin. simpl. apply elem_of_cons. by right. }
    simpl vda_queue_walk.
    run (read_next_frame_eq _ _ _ Hr Hlr). cbn [next_frame].
    run (goes_before_cell _ _ _ _ _ Hn Hx Hln Hlx). cbn [pts].
    simpl insert_record.
    destruct (t <? r_pts x)%Z; cbv beta iota.
    + eexists. split; [| split].
      * by erewrite link_after_eq.
      * cbn [pts cv_buffer].
        apply chain_cons_intro; [done | by rewrite lookup_insert_eq |].
        simpl head_addr.
        apply (chain_cons_intro _ (Rec n t b)); [done | |].
        { simpl. rewrite lookup_insert_ne by done. by rewrite lookup_insert_eq. }
        simpl head_addr.
        apply chain_insert_other; [done |]. by apply chain_insert_other.
      * intros a Han Hanin.
        rewrite !lookup_insert_ne; [done | congruence |].
        intros <-. apply Hanin. simpl. apply elem_of_cons. by left.
    + destruct (IH fuel w x n t b nx0 Hc Hn Hnin' Hln) as (h' & Hrun & Hc' & Hsame).
      { simpl in Hfuel. lia. }
      exists h'. split; [done |]. split.
      * apply chain_cons_intro; [done | | done].
        rewrite Hsame; [| done | done].
        rewrite Hlr. simpl. by destruct l.
      * intros a Han Hanin. apply Hsame; [done |].
        intros Hin. apply Hanin. simpl. apply elem_of_cons. by right.
Qed.

Lemma write_cv_buffer_eq w p f v :
  p ≠ NULL → frames w !! p = Some f →
  write_cv_buffer p v w =
    Ok tt (with_frames (<[p := Frame (pts f) v (next_frame f)]> (frames w)) w).
Proof. intros Hn Hl. unfold write_cv_buffer. by rewrite (store_eq _ _ _ _ Hn Hl). Qed.

Lemma write_pts_eq w p f v :
  p ≠ NULL → frames w !! p = Some f →
  write_pts p v w =
    Ok tt (with_frames (<[p := Frame v (cv_buffer f) (next_frame f)]> (frames w)) w).
Proof. intros Hn Hl. unfold write_pts. by rewrite (store_eq _ _ _ _ Hn Hl). Qed.

Lemma new_addr_not_null w : new_addr w ≠ NULL.
Proof.
  unfold new_addr. intros Heq.
  apply (is_fresh ({[NULL]} ∪ dom (frames w))). rewrite Heq. set_solver.
Qed.

Lemma new_addr_fresh w : frames w !! new_addr w = None.
Proof.
  apply not_elem_of_dom. unfold new_addr. intros Hin.
  apply (is_fresh ({[NULL]} ∪ dom (frames w))). set_solver.
Qed.

Lemma new_addr_not_in_chain w p l : chain (frames w) p l → new_addr w ∉ map r_addr l.
Proof.
  intros Hc Hin. apply (chain_addr_in_dom _ _ _ _ Hc) in Hin as [f Hf].
  by rewrite new_addr_fresh in Hf.
Qed.

Lemma av_mallocz_eq w :
  av_malloc_ok w = true →
  av_mallocz w =
    Ok (new_addr w) (with_frames (<[new_addr w := Frame 0 NULL NULL]> (frames w)) w).
Proof. intros Hok. unfold av_mallocz. by rewrite Hok. Qed.

(** The callback on an accepted image: a cell is allocated, filled in and
    linked where [insert_record] puts it; the image is retained once. *)
Lemma vda_decoder_callback_insert w l user_info status infoFlags image_buffer :
  session_ok w l → accepted_image image_buffer → av_malloc_ok w = true →
  let new := Rec (new_addr w) (vda_pts_from_dictionary user_info) image_buffer in
  ∃ h', vda_decoder_callback user_info status infoFlags image_buffer w =
          Ok tt (World (ctx (queue_set (head_addr (insert_record new l)) w)) h'
                       (mutexes w) (trace w ++ [EvRetain image_buffer])) ∧
        chain h' (head_addr (insert_record new l)) (insert_record new l) ∧
        (∀ p, p ≠ new_addr w → p ∉ map r_addr l → h' !! p = frames w !! p).
Proof.
  intros [Hc Hm] [Himg Hfmt] Hok new.
  pose proof (new_addr_not_null w) as Hn.
  pose proof (new_addr_fresh w) as Hfresh.
  pose proof (new_addr_not_in_chain _ _ _ Hc) as Hnin.
  subst new. unfold vda_decoder_callback.
  remember (vda_pts_from_dictionary user_info) as t eqn:Ht.
  remember (new_addr w) as a eqn:Ha.
  rewrite decide_False by done.
  rewrite decide_False by (intros Hne; by apply Hne).
  run (av_mallocz_eq _ Hok). rewrite <- Ha.
  erewrite bind_Ok; cycle 1.
  { apply write_next_frame_eq; [done |]. wsimpl. apply lookup_insert_eq. }
  wsimpl. rewrite insert_insert_eq.
  erewrite bind_Ok; cycle 1.
  { unfold CVPixelBufferRetain. unfold emit at 1. unfold bind at 1 2. unfold ret at 1.
    wsimpl. apply write_cv_buffer_eq; [done |]. wsimpl. apply lookup_insert_eq. }
  wsimpl. rewrite insert_insert_eq.
  erewrite bind_Ok; cycle 1.
  { apply write_pts_eq; [done |]. wsimpl. apply lookup_insert_eq. }
  wsimpl. rewrite insert_insert_eq.
  erewrite bind_Ok; cycle 1.
  { apply lock_obtain_eq. wsimpl. exact Hm. }
  wsimpl.
  assert (∀ h q, (vda_lock_operation AV_LOCK_RELEASE >> ret tt)
            (World (ctx (queue_set q w)) h
               (<[queue_mutex (ctx w) := true]> (mutexes w))
               (trace w ++ [EvRetain image_buffer])) =
          Ok tt (World (ctx (queue_set q w)) h (mutexes w)
                   (trace w ++ [EvRetain image_buffer]))) as Hrel.
  { intros h q. erewrite bind_Ok; cycle 1.
    { apply lock_release_eq. wsimpl. unfold queue_set. wsimpl. apply lookup_insert_eq. }
    unfold queue_set. wsimpl. by rewrite relock_id. }
  destruct l as [|r l].
  - simpl in Hc.
    erewrite bind_Ok; cycle 1.
    { unfold get_ctx at 1. unfold bind at 1. wsimpl. rewrite Hc.
      erewrite bind_Ok; [| apply goes_before_null]. cbv beta iota.
      erewrite bind_Ok; cycle 1.
      { apply write_next_frame_eq; [done |]. wsimpl. apply lookup_insert_eq. }
      wsimpl. rewrite insert_insert_eq. unfold set_queue. wsimpl. reflexivity. }
    exists (<[a := Frame t image_buffer NULL]> (frames w)). split; [| split].
    + wsimpl. apply (Hrel _ a).
    + simpl. split; [done |]. split; [done |]. exists NULL. split; [| done].
      apply lookup_insert_eq.
    + intros p Hp _. by apply lookup_insert_ne.
  - pose proof Hc as Hc0.
    apply chain_cons_inv in Hc as (Hq & Hr & Hlr & Hcl).
    assert (r_addr r ≠ a) as Hra.
    { intros Heq. apply Hnin. simpl. apply elem_of_cons. by left. }
    assert (a ≠ queue (ctx w)) as Hqa by (by rewrite Hq).
    simpl insert_record. cbn [r_pts].
    destruct (t <? r_pts r)%Z eqn:Hlt.
    + erewrite bind_Ok; cycle 1.
      { unfold get_ctx at 1. unfold bind at 1. wsimpl.
        erewrite bind_Ok; cycle 1.
        { apply goes_before_cell; [done | done | |]; wsimpl.
          - apply lookup_insert_eq.
          - rewrite lookup_insert_ne by done. exact Hlr. }
        wsimpl. rewrite Hlt.
        erewrite bind_Ok; cycle 1.
        { apply write_next_frame_eq; [done |]. wsimpl. apply lookup_insert_eq. }
        wsimpl. rewrite insert_insert_eq. unfold set_queue. wsimpl. reflexivity. }
      exists (<[a := Frame t image_buffer (queue (ctx w))]> (frames w)). split; [| split].
      * wsimpl. apply (Hrel _ a).
      * simpl head_addr. apply (chain_cons_intro _ (Rec a t image_buffer)); [done | |].
        { simpl. rewrite Hq. apply lookup_insert_eq. }
        simpl head_addr. rewrite <- Hq. by apply chain_insert_other.
      * intros p Hp _. by apply lookup_insert_ne.
    + set (w1 := World (ctx w) (<[a:=Frame t image_buffer NULL]> (frames w))
                   (<[queue_mutex (ctx w):=true]> (mutexes w))
                   (trace w ++ [EvRetain image_buffer])).
      destruct (vda_queue_walk_spec l (S (size (frames w1))) w1 r a t image_buffer NULL)
        as (h' & Hrun & Hc' & Hsame).
      { subst w1. wsimpl. rewrite <- Hq. by apply chain_insert_other. }
      { done. }
      { done. }
      { subst w1. wsimpl. apply lookup_insert_eq. }
      { assert (chain (frames w1) (queue (ctx w)) (r :: l)) as Hc1.
        { subst w1. wsimpl. by apply chain_insert_other. }
        apply chain_length in Hc1. cbn [length] in Hc1. lia. }
      erewrite bind_Ok; cycle 1.
      { unfold get_ctx at 1. unfold bind at 1. fold w1. wsimpl.
        erewrite bind_Ok; cycle 1.
        { apply goes_before_cell; [done | done | |]; subst w1; wsimpl.
          - apply lookup_insert_eq.
          - rewrite lookup_insert_ne by done. exact Hlr. }
        wsimpl. rewrite Hlt.
        unfold loop_bound at 1. unfold bind at 1.
        change (queue (ctx w1)) with (queue (ctx w)). rewrite Hq. exact Hrun. }
      exists h'. split; [| split].
      * subst w1. wsimpl. simpl head_addr.
        replace (World (ctx w) h' (<[queue_mutex (ctx w):=true]> (mutexes w))
                   (trace w ++ [EvRetain image_buffer]))
          with (World (ctx (queue_set (r_addr r) w)) h'
                  (<[queue_mutex (ctx w):=true]> (mutexes w))
                  (trace w ++ [EvRetain image_buffer])); [apply Hrel |].
        unfold queue_set. wsimpl. rewrite <- Hq. by destruct (ctx w).
      * exact Hc'.
      * intros p Hp Hpl. rewrite Hsame by done. subst w1. wsimpl.
        by apply lookup_insert_ne.
Qed.

Lemma vda_decoder_callback_session w l user_info status infoFlags image_buffer :
  session_ok w l → accepted_image image_buffer → av_malloc_ok w = true →
  ∃ w', vda_decoder_callback user_info status infoFlags image_buffer w = Ok tt w' ∧
        session_ok w'
          (insert_record
             (Rec (new_addr w) (vda_pts_from_dictionary user_info) image_buffer) l) ∧
        trace w' = trace w ++ [EvRetain image_buffer] ∧
        mutexes w' = mutexes w ∧
        ctx w' = ctx (queue_set (queue (ctx w')) w) ∧
        (∀ p, p ≠ new_addr w → p ∉ map r_addr l → frames w' !! p = frames w !! p).
Proof.
  intros Hs Himg Hok.
  destruct (vda_decoder_callback_insert w l user_info status infoFlags image_buffer
              Hs Himg Hok) as (h' & Hrun & Hc & Hsame).
  eexists. split; [exact Hrun |].
  destruct Hs as [_ Hm].
  repeat split; try done.
Qed.

(** The callback on anything else returns at once. *)
Lemma vda_decoder_callback_drop w user_info status infoFlags image_buffer :
  image_buffer = NULL ∨
  CVPixelBufferGetPixelFormatType image_buffer ≠ kCVPixelFormatType_422YpCbCr8 →
  vda_decoder_callback user_info status infoFlags image_buffer w = Ok tt w.
Proof.
  intros Hbad. unfold vda_decoder_callback.
  destruct (decide (NULL = image_buffer)) as [|Hn]; [done |].
  destruct Hbad as [-> | Hfmt]; [done |].
  by rewrite decide_True by (intros Heq; by apply Hfmt).
Qed.

Lemma ff_vda_queue_pop_empty w :
  queue (ctx w) = NULL → ff_vda_queue_pop w = Ok NULL w.
Proof.
  intros Hq. unfold ff_vda_queue_pop, get_ctx. unfold bind at 1.
  by rewrite decide_True.
Qed.

Lemma ff_vda_queue_pop_cons w r l :
  session_ok w (r :: l) →
  ff_vda_queue_pop w = Ok (r_addr r) (queue_set (head_addr l) w) ∧
  session_ok (queue_set (head_addr l) w) l.
Proof.
  intros [Hc Hm]. apply chain_cons_inv in Hc as (Hq & Hn & Hl & Hc).
  split; [| by split].
  unfold ff_vda_queue_pop. unfold get_ctx at 1. unfold bind at 1.
  rewrite decide_False by done.
  run (lock_obtain_eq _ Hm).
  unfold get_ctx at 1. unfold bind at 1. wsimpl.
  erewrite bind_Ok; cycle 1.
  { apply read_next_frame_eq; [done |]. wsimpl. exact Hl. }
  wsimpl. unfold set_queue at 1. unfold bind at 1. wsimpl.
  erewrite bind_Ok; cycle 1.
  { apply lock_release_eq. wsimpl. apply lookup_insert_eq. }
  wsimpl. rewrite relock_id by done. unfold ret, queue_set. wsimpl.
  by rewrite Hq.
Qed.

Lemma ff_vda_release_vda_frame_eq w p f :
  p ≠ NULL → frames w !! p = Some f →
  ff_vda_release_vda_frame p w =
    Ok tt (World (ctx w) (delete p (frames w)) (mutexes w)
                 (trace w ++ [EvRelease (cv_buffer f)])).
Proof.
  intros Hn Hl. unfold ff_vda_release_vda_frame. rewrite decide_True by done.
  run (read_cv_buffer_eq _ _ _ Hn Hl).
  unfold CVPixelBufferRelease, emit. unfold bind at 1. unfold av_free. wsimpl.
  rewrite decide_False by done. by rewrite Hl.
Qed.

Lemma release_cells_cons r l h :
  release_cells (r :: l) h = release_cells l (delete (r_addr r) h).
Proof. done. Qed.

(** The drain loop gives every cell of the chain back, head first, and
    releases the image of each one once. *)
Lemma vda_clear_queue_loop_spec l : ∀ fuel w,
  chain (frames w) (queue (ctx w)) l → length l < fuel →
  vda_clear_queue_loop fuel w =
    Ok tt (World (ctx (queue_set NULL w)) (release_cells l (frames w)) (mutexes w)
                 (trace w ++ release_events l)).
Proof.
  induction l as [|r l IH]; intros fuel w Hc Hfuel.
  - destruct fuel as [|fuel]; [simpl in Hfuel; lia |].
    simpl in Hc. simpl vda_clear_queue_loop.
    unfold get_ctx at 1. unfold bind at 1. rewrite decide_False by (intros Hne; by apply Hne).
    unfold ret, queue_set, release_events. simpl. rewrite app_nil_r.
    wsimpl. destruct w as [[]]; simpl in *. by subst.
  - destruct fuel as [|fuel]; [simpl in Hfuel; lia |].
    pose proof (chain_NoDup _ _ _ Hc) as Hnd.
    simpl in Hnd. apply NoDup_cons in Hnd as [Hrnin _].
    apply chain_cons_inv in Hc as (Hq & Hn & Hl & Hc).
    simpl vda_clear_queue_loop.
    unfold get_ctx at 1. unfold bind at 1. rewrite decide_True by done.
    run (read_next_frame_eq _ _ _ Hn Hl). cbn [next_frame].
    unfold set_queue at 1. unfold bind at 1.
    erewrite bind_Ok; cycle 1.
    { apply ff_vda_release_vda_frame_eq; [done |]. wsimpl. exact Hl. }
    wsimpl. rewrite IH; cycle 1.
    { wsimpl. rewrite Hq. by apply chain_delete_other. }
    { simpl in Hfuel. lia. }
    unfold queue_set, release_events. wsimpl.
    rewrite Hq. rewrite release_cells_cons. simpl map.
    by rewrite <- app_assoc.
Qed.

Lemma vda_clear_queue_spec w l :
  session_ok w l →
  vda_clear_queue w =
    Ok tt (World (ctx (queue_set NULL w)) (release_cells l (frames w)) (mutexes w)
                 (trace w ++ release_events l)).
Proof.
  intros [Hc Hm]. unfold vda_clear_queue.
  run (lock_obtain_eq _ Hm).
  erewrite bind_Ok; cycle 1.
  { unfold loop_bound at 1. unfold bind at 1.
    apply vda_clear_queue_loop_spec; wsimpl; [exact Hc |].
    apply chain_length in Hc. lia. }
  wsimpl.
  erewrite bind_Ok; cycle 1.
  { apply lock_release_eq. unfold queue_set. wsimpl. apply lookup_insert_eq. }
  unfold queue_set, ret. wsimpl. by rewrite relock_id.
Qed.

Lemma queue_set_id w : queue_set (queue (ctx w)) w = w.
Proof. by destruct w as [[]]. Qed.

Lemma queue_set_twice q1 q2 w : queue_set q2 (queue_set q1 w) = queue_set q2 w.
Proof. done. Qed.

Lemma record_eta r : Rec (r_addr r) (r_pts r) (r_buf r) = r.
Proof. by destruct r. Qed.

(** Popping until NULL hands out the records of the chain in order.  The
    cells stay allocated: they now belong to the consumer. *)
Lemma pop_until_empty_spec l : ∀ fuel w,
  session_ok w l → length l < fuel →
  pop_until_empty fuel w = Ok l (queue_set NULL w).
Proof.
  induction l as [|r l IH]; intros fuel w Hs Hfuel.
  - destruct fuel as [|fuel]; [simpl in Hfuel; lia |].
    destruct Hs as [Hc _]. simpl in Hc. simpl pop_until_empty.
    run (ff_vda_queue_pop_empty _ Hc). rewrite decide_True by done.
    unfold ret. by rewrite <- Hc, queue_set_id.
  - destruct fuel as [|fuel]; [simpl in Hfuel; lia |].
    destruct (ff_vda_queue_pop_cons _ _ _ Hs) as [Hpop Hs'].
    destruct Hs as [Hc _]. apply chain_cons_inv in Hc as (Hq & Hn & Hl & _).
    simpl pop_until_empty. run Hpop.
    rewrite decide_False by (by rewrite <- Hq).
    erewrite bind_Ok; cycle 1.
    { apply load_eq; [by rewrite <- Hq |]. rewrite <- Hq. exact Hl. }
    cbn [pts cv_buffer].
    rewrite (bind_Ok _ _ _ _ _ (IH fuel _ Hs' ltac:(simpl in Hfuel; lia))).
    unfold ret. by rewrite record_eta, queue_set_twice.
Qed.

Lemma pop_all_spec w l :
  session_ok w l → pop_all w = Ok l (queue_set NULL w).
Proof.
  intros Hs. unfold pop_all, loop_bound. unfold bind at 1.
  apply pop_until_empty_spec; [done |].
  destruct Hs as [Hc _]. apply chain_length in Hc. lia.
Qed.

(** Every step of a script keeps the session well formed and ordered. *)
Lemma run_op_ordered o w l :
  (∀ w, av_malloc_ok w = true) →
  session_ok w l → ordered l →
  ∃ w' l', run_op o w = Ok tt w' ∧ session_ok w' l' ∧ ordered l'.
Proof.
  intros Hmem Hs Ho. destruct o as [user_info status infoFlags image_buffer | |].
  - simpl run_op.
    destruct (decide (image_buffer = NULL)) as [Hnull | Hnull].
    { exists w, l. split; [| done]. apply vda_decoder_callback_drop. by left. }
    destruct (decide (CVPixelBufferGetPixelFormatType image_buffer
                      = kCVPixelFormatType_422YpCbCr8)) as [Hfmt | Hfmt].
    + destruct (vda_decoder_callback_session w l user_info status infoFlags
                  image_buffer Hs (conj Hnull Hfmt) (Hmem w))
        as (w' & Hrun & Hs' & _).
      eexists w', _. split; [exact Hrun |]. split; [exact Hs' |].
      by apply insert_record_ordered.
    + exists w, l. split; [| done]. apply vda_decoder_callback_drop. by right.
  - simpl run_op. destruct l as [|r l].
    + exists w, []. split; [| done].
      destruct Hs as [Hc _]. simpl in Hc.
      by run (ff_vda_queue_pop_empty _ Hc).
    + destruct (ff_vda_queue_pop_cons _ _ _ Hs) as [Hpop Hs'].
      eexists _, l. split; [by run Hpop |]. split; [done |].
      by eapply ordered_tail.
  - simpl run_op. destruct l as [|r l].
    + exists w, []. split; [| done].
      destruct Hs as [Hc _]. simpl in Hc.
      by run (ff_vda_queue_pop_empty _ Hc).
    + destruct (ff_vda_queue_pop_cons _ _ _ Hs) as [Hpop [Hc' Hm']].
      destruct Hs as [Hc _].
      pose proof (chain_NoDup _ _ _ Hc) as Hnd.
      simpl in Hnd. apply NoDup_cons in Hnd as [Hrnin _].
      apply chain_cons_inv in Hc as (Hq & Hn & Hl & _).
      eexists _, l. split; [| split; [split |]].
      * run Hpop. rewrite Hq in Hn, Hl.
        by apply ff_vda_release_vda_frame_eq.
      * wsimpl. by apply chain_delete_other.
      * exact Hm'.
      * by eapply ordered_tail.
Qed.

Lemma run_ops_ordered os : ∀ w l,
  (∀ w, av_malloc_ok w = true) →
  session_ok w l → ordered l →
  ∃ w' l', run_ops os w = Ok tt w' ∧ session_ok w' l' ∧ ordered l'.
Proof.
  induction os as [|o os IH]; intros w l Hmem Hs Ho.
  - by exists w, l.
  - destruct (run_op_ordered o w l Hmem Hs Ho) as (w1 & l1 & Hrun & Hs1 & Ho1).
    destruct (IH w1 l1 Hmem Hs1 Ho1) as (w2 & l2 & Hrun2 & Hs2 & Ho2).
    exists w2, l2. split; [| done].
    simpl run_ops. by run Hrun.
Qed.

Lemma vda_pts_roundtrip (t : Z) :
  vda_pts_from_dictionary (vda_dictionary_with_pts t) = t.
Proof.
  unfold vda_pts_from_dictionary, vda_dictionary_with_pts.
  by rewrite lookup_singleton_eq.
Qed.

(** Delivering frames one after the other keeps all of them. *)
Lemma run_deliver_all inputs : ∀ w l,
  (∀ w, av_malloc_ok w = true) →
  Forall (λ f, accepted_image f.2) inputs →
  session_ok w l → ordered l →
  ∃ w' l', run_ops (map deliver inputs) w = Ok tt w' ∧
           session_ok w' l' ∧ ordered l' ∧
           map payload l' ≡ₚ map payload l ++ inputs.
Proof.
  induction inputs as [|[t b] inputs IH]; intros w l Hmem Hacc Hs Ho.
  - exists w, l. rewrite app_nil_r. done.
  - apply Forall_cons in Hacc as [Hb Hacc]. simpl in Hb.
    destruct (vda_decoder_callback_session w l (vda_dictionary_with_pts t)
                kVDADecoderNoErr 0%Z b Hs Hb (Hmem w)) as (w1 & Hrun & Hs1 & _).
    rewrite vda_pts_roundtrip in Hs1.
    destruct (IH w1 _ Hmem Hacc Hs1 (insert_record_ordered _ _ Ho))
      as (w2 & l2 & Hrun2 & Hs2 & Ho2 & Hperm).
    exists w2, l2. split; [| split; [done | split; [done |]]].
    + simpl. by run Hrun.
    + rewrite Hperm.
      rewrite (Permutation_map payload (insert_record_perm _ l)).
      simpl. unfold payload at 1. simpl.
      by rewrite Permutation_middle.
Qed.

Lemma sorted_le_NoDup_lt (ts : list Z) :
  StronglySorted Z.le ts → NoDup ts → StronglySorted Z.lt ts.
Proof.
  induction ts as [|t ts IH]; intros Hs Hnd; [constructor |].
  apply StronglySorted_inv in Hs as [Hs Hall].
  apply NoDup_cons in Hnd as [Hnin Hnd].
  constructor; [by apply IH |].
  rewrite Forall_forall in *. intros x Hx.
  specialize (Hall x Hx).
  assert (t ≠ x) by (intros ->; done). lia.
Qed.

(** *** The session functions *)

Lemma ff_vda_decoder_decode_spec w bitstream bitstream_size frame_pts :
  let coded_frame := take (Z.to_nat bitstream_size) bitstream in
  let user_info := vda_dictionary_with_pts frame_pts in
  let status := VDADecoderDecode w (decoder (ctx w)) 0%Z coded_frame user_info in
  ff_vda_decoder_decode bitstream bitstream_size frame_pts w =
    Ok status
       (with_trace (trace w ++ [EvDecoderDecode (decoder (ctx w)) 0 coded_frame user_info]) w).
Proof.
  intros coded_frame user_info status.
  unfold ff_vda_decoder_decode, get_ctx. unfold bind at 1.
  unfold bind at 1. unfold emit, bind, ret. fold coded_frame user_info status.
  unfold kVDADecoderNoErr.
  destruct (decide (0%Z ≠ status)) as [Hne | Heq]; [done |].
  apply dec_stable in Heq. by rewrite <- Heq.
Qed.

Lemma return_status_eq (st : Z) w :
  (if decide (kVDADecoderNoErr ≠ st) then ret st else ret 0%Z) w = Ok st w.
Proof.
  unfold kVDADecoderNoErr.
  destruct (decide (0%Z ≠ st)) as [|Heq]; [done |].
  apply dec_stable in Heq. by rewrite <- Heq.
Qed.

Lemma ff_vda_destroy_decoder_spec w l :
  session_ok w l →
  ∃ w', ff_vda_destroy_decoder w = Ok (destroy_status w) w' ∧
        queue (ctx w') = NULL ∧
        frames w' = release_cells l (frames w) ∧
        trace w' = trace w ++ destroy_events w ++ release_events l.
Proof.
  intros Hs. unfold ff_vda_destroy_decoder.
  unfold get_ctx at 1. unfold bind at 1.
  set (w1 := with_trace (trace w ++ destroy_events w) w).
  erewrite bind_Ok with (a := destroy_status w) (w' := w1); cycle 1.
  { unfold destroy_status, destroy_events in *.
    destruct (decide (decoder (ctx w) ≠ NULL)); [done |].
    subst w1. unfold ret, with_trace. by rewrite app_nil_r, world_eta. }
  assert (session_ok w1 l) as Hs1 by exact Hs.
  run (vda_clear_queue_spec w1 l Hs1). clear Hs1. subst w1.
  unfold get_ctx at 1. unfold bind at 1. unfold queue_set. wsimpl.
  destruct Hs as [_ Hm].
  destruct (decide (queue_mutex (ctx w) ≠ NULL)) as [Hmx | Hmx].
  - eexists. split.
    + erewrite bind_Ok; cycle 1.
      { unfold vda_lock_operation. unfold bind at 1. wsimpl. rewrite Hm.
        unfold set_queue_mutex. unfold bind at 1. wsimpl. reflexivity. }
      apply return_status_eq.
    + wsimpl. by rewrite <- app_assoc.
  - eexists. split.
    + unfold ret at 1. unfold bind at 1. apply return_status_eq.
    + wsimpl. by rewrite <- app_assoc.
Qed.

Lemma release_cells_lookup_other l : ∀ h a,
  a ∉ map r_addr l → release_cells l h !! a = h !! a.
Proof.
  induction l as [|r l IH]; intros h a Ha; [done |].
  rewrite release_cells_cons. simpl in Ha.
  apply not_elem_of_cons in Ha as [Hne Ha].
  rewrite IH by done. by apply lookup_delete_ne.
Qed.

Lemma release_cells_lookup_freed l : ∀ h a,
  a ∈ map r_addr l → release_cells l h !! a = None.
Proof.
  induction l as [|r l IH]; intros h a Ha.
  - by apply not_elem_of_nil in Ha.
  - rewrite release_cells_cons.
    destruct (decide (a ∈ map r_addr l)) as [Hin | Hnin]; [by apply IH |].
    rewrite release_cells_lookup_other by done.
    simpl in Ha. apply elem_of_cons in Ha as [-> | Ha]; [| done].
    apply lookup_delete_eq.
Qed.

(** Out of memory: the callback writes through the NULL it was handed. *)
Lemma vda_decoder_callback_alloc_failure w user_info status infoFlags image_buffer :
  accepted_image image_buffer → av_malloc_ok w = false →
  vda_decoder_callback user_info status infoFlags image_buffer w = Fault.
Proof.
  intros [Himg Hfmt] Hoom. unfold vda_decoder_callback.
  rewrite decide_False by done.
  rewrite decide_False by (intros Hne; by apply Hne).
  unfold bind at 1. unfold av_mallocz. rewrite Hoom.
  done.
Qed.

End Specs.

(** ** The properties of the queue *)

(** C1. Ordering invariant.  Start from a created session with an empty
    queue and run any script of decoder callbacks and pops, with memory
    available.  The script runs to its end, and popping until the queue is
    empty then yields timestamps in non-decreasing order.  The script is
    arbitrary, so this holds at every point of every longer script. *)
Theorem pop_sequence_nondecreasing `{Platform} (w0 : world) (os : list op) :
  (∀ w, av_malloc_ok w = true) →
  session_ok w0 [] →
  ∃ w1 rs w2,
    run_ops os w0 = Ok tt w1 ∧
    pop_all w1 = Ok rs w2 ∧
    queue (ctx w2) = NULL ∧
    StronglySorted Z.le (map r_pts rs).
Proof.
  intros Hmem Hs.
  destruct (run_ops_ordered os w0 [] Hmem Hs) as (w1 & l & Hrun & Hs1 & Ho).
  { constructor. }
  exists w1, l, (queue_set NULL w1).
  split; [done |]. split; [by apply pop_all_spec |]. done.
Qed.

Lemma pop_sequence_nondecreasing_witness :
  (∀ w, @av_malloc_ok steady_platform w = true) ∧
  session_ok created_session [] ∧
  ∃ w1 rs w2,
    @run_ops steady_platform mixed_script created_session = Ok tt w1 ∧
    @pop_all steady_platform w1 = Ok rs w2 ∧
    queue (ctx w2) = NULL ∧
    StronglySorted Z.le (map r_pts rs).
Proof.
  assert (∀ w, @av_malloc_ok steady_platform w = true) as Hmem by reflexivity.
  assert (session_ok created_session []) as Hs by (split; reflexivity).
  split; [exact Hmem |]. split; [exact Hs |].
  exact (@pop_sequence_nondecreasing steady_platform created_session mixed_script Hmem Hs).
Defined.

Lemma busy_session_ok : session_ok busy_session busy_records.
Proof.
  split; [| reflexivity].
  simpl. repeat (split; [done |]). eexists. split; [reflexivity |].
  repeat (split; [done |]). eexists. split; [reflexivity |].
  repeat (split; [done |]). eexists. split; [reflexivity |]. done.
Defined.

Lemma busy_records_ordered : ordered busy_records.
Proof. unfold ordered. simpl. repeat (constructor; try lia). Defined.

Lemma steady_accepts (b : N) : b ≠ NULL → @accepted_image steady_platform b.
Proof. intros Hb. split; [exact Hb | reflexivity]. Defined.

(** C2. Tie stability.  On an ordered queue, the callback links the new
    record behind every record whose timestamp is not later than its own
    (so behind all records with an equal timestamp, which arrived earlier)
    and in front of every record with a later one.  The records that were
    there keep their order, and popping until empty hands the records out
    in exactly that order. *)
Theorem insert_after_last_not_later `{Platform} (w : world) (l : list record)
    (user_info : option (gmap string Z)) (status infoFlags : Z) (image_buffer : N) :
  session_ok w l → ordered l →
  accepted_image image_buffer → av_malloc_ok w = true →
  ∃ w' l1 l2,
    vda_decoder_callback user_info status infoFlags image_buffer w = Ok tt w' ∧
    l = l1 ++ l2 ∧
    session_ok w' (l1 ++ new_record w user_info image_buffer :: l2) ∧
    Forall (λ x, (r_pts x ≤ vda_pts_from_dictionary user_info)%Z) l1 ∧
    Forall (λ x, (vda_pts_from_dictionary user_info < r_pts x)%Z) l2 ∧
    (∀ x, x ∈ l → r_pts x = vda_pts_from_dictionary user_info → x ∈ l1) ∧
    pop_all w' = Ok (l1 ++ new_record w user_info image_buffer :: l2) (queue_set NULL w').
Proof.
  intros Hs Ho Himg Hok.
  destruct (vda_decoder_callback_session w l user_info status infoFlags image_buffer
              Hs Himg Hok) as (w' & Hrun & Hs' & _).
  destruct (insert_record_split (new_record w user_info image_buffer) l Ho)
    as (l1 & l2 & Hl & Hins & H1 & H2).
  fold (new_record w user_info image_buffer) in Hs'. rewrite Hins in Hs'.
  exists w', l1, l2.
  split; [exact Hrun |]. split; [exact Hl |]. split; [exact Hs' |].
  split; [exact H1 |]. split; [exact H2 |]. split.
  - intros x Hx Heq. subst l. apply elem_of_app in Hx as [Hx | Hx]; [done |].
    rewrite Forall_forall in H2. specialize (H2 x Hx). simpl in H2. lia.
  - by apply pop_all_spec.
Qed.

Lemma insert_after_last_not_later_witness :
  session_ok busy_session busy_records ∧ ordered busy_records ∧
  @accepted_image steady_platform 14 ∧ @av_malloc_ok steady_platform busy_session = true ∧
  ∃ w' l1 l2,
    @vda_decoder_callback steady_platform (vda_dictionary_with_pts 50) 0 0 14 busy_session
      = Ok tt w' ∧
    busy_records = l1 ++ l2 ∧
    session_ok w' (l1 ++ new_record busy_session (vda_dictionary_with_pts 50) 14 :: l2) ∧
    Forall (λ x, (r_pts x ≤ vda_pts_from_dictionary (vda_dictionary_with_pts 50))%Z) l1 ∧
    Forall (λ x, (vda_pts_from_dictionary (vda_dictionary_with_pts 50) < r_pts x)%Z) l2 ∧
    (∀ x, x ∈ busy_records →
          r_pts x = vda_pts_from_dictionary (vda_dictionary_with_pts 50) → x ∈ l1) ∧
    @pop_all steady_platform w'
      = Ok (l1 ++ new_record busy_session (vda_dictionary_with_pts 50) 14 :: l2)
           (queue_set NULL w').
Proof.
  assert (@accepted_image steady_platform 14) as Himg by (by apply steady_accepts).
  assert (@av_malloc_ok steady_platform busy_session = true) as Hok by reflexivity.
  split; [exact busy_session_ok |]. split; [exact busy_records_ordered |].
  split; [exact Himg |]. split; [exact Hok |].
  exact (@insert_after_last_not_later steady_platform busy_session busy_records
           (vda_dictionary_with_pts 50) 0%Z 0%Z 14%N
           busy_session_ok busy_records_ordered Himg Hok).
Defined.

(** The buffers of the busy session after a third frame with timestamp 50
    arrived, in pop order: the newcomer (image 14) follows both earlier
    frames with timestamp 50 and precedes the frame with timestamp 100. *)
Example tie_arrival_order :
  @bind unit _
    (@vda_decoder_callback steady_platform (vda_dictionary_with_pts 50) 0 0 14)
    (fun _ => let* rs := @pop_all steady_platform in ret (map payload rs)) busy_session
  = Ok [(50, 11%N); (50, 13%N); (50, 14%N); (100, 12%N)]%Z
       (World (VdaContext 7 NULL 1 640 480 avc1)
          (<[5%N := Frame 50 14 3]> (<[2%N := Frame 50 11 4]>
             (<[4%N := Frame 50 13 5]> (<[3%N := Frame 100 12 NULL]> ∅))))
          {[ 1%N := false ]} [EvRetain 12; EvRetain 11; EvRetain 13; EvRetain 14]).
Proof. vm_compute. reflexivity. Qed.

(** C3. Pop returns the head, which holds the smallest timestamp.  On a
    well-formed, ordered queue: if the queue is empty, pop returns NULL and
    leaves the world as it is, whatever the state of the guard (it does not
    even ask for it, so it cannot wait); otherwise no record of the queue is
    earlier than the head, and with the guard free pop unlinks the head and
    returns it, still allocated and now the caller's. *)
Theorem ff_vda_queue_pop_head_min `{Platform} (w : world) (l : list record) :
  chain (frames w) (queue (ctx w)) l → ordered l →
  match l with
  | [] => ff_vda_queue_pop w = Ok NULL w
  | r :: l' =>
      (∀ x, x ∈ l → (r_pts r ≤ r_pts x)%Z) ∧
      (mutexes w !! queue_mutex (ctx w) = Some false →
       ff_vda_queue_pop w = Ok (r_addr r) (queue_set (head_addr l') w) ∧
       session_ok (queue_set (head_addr l') w) l' ∧
       frames (queue_set (head_addr l') w) !! r_addr r
         = Some (Frame (r_pts r) (r_buf r) (head_addr l')))
  end.
Proof.
  intros Hc Ho. destruct l as [|r l'].
  - simpl in Hc. by apply ff_vda_queue_pop_empty.
  - split.
    + intros x Hx. by eapply ordered_head_min.
    + intros Hm.
      destruct (ff_vda_queue_pop_cons w r l' (conj Hc Hm)) as [Hpop Hs].
      apply chain_cons_inv in Hc as (Hq & _ & Hl & _).
      split; [done |]. split; [done |]. by rewrite <- Hq.
Qed.

Lemma ff_vda_queue_pop_head_min_witness :
  chain (frames busy_session) (queue (ctx busy_session)) busy_records ∧
  ordered busy_records ∧
  (∀ x, x ∈ busy_records → (50 ≤ r_pts x)%Z) ∧
  (mutexes busy_session !! queue_mutex (ctx busy_session) = Some false →
   @ff_vda_queue_pop steady_platform busy_session = Ok 2%N (queue_set 4 busy_session) ∧
   session_ok (queue_set 4 busy_session) [Rec 4 50 13; Rec 3 100 12] ∧
   frames (queue_set 4 busy_session) !! 2%N = Some (Frame 50 11 4)).
Proof.
  split; [exact (proj1 busy_session_ok) |]. split; [exact busy_records_ordered |].
  exact (@ff_vda_queue_pop_head_min steady_platform busy_session busy_records
           (proj1 busy_session_ok) busy_records_ordered).
Defined.

(** Pop on an empty queue while the guard is held: NULL, at once. *)
Example pop_empty_while_guard_held :
  @ff_vda_queue_pop steady_platform guarded_session = Ok NULL guarded_session.
Proof. reflexivity. Qed.

(** Pop on a queue that holds frames does wait for the guard. *)
Example pop_waits_for_guard :
  @ff_vda_queue_pop steady_platform
     (with_mutexes {[ 1%N := true ]} busy_session) = Blocked.
Proof. reflexivity. Qed.

(** The spec's scenario: frames with timestamps 100 and 50 are submitted,
    the callback fires for 50 first; pop returns 50, then 100, then NULL. *)
Example pop_scenario :
  value_of
    ((@run_ops steady_platform [deliver (50%Z, 11%N); deliver (100%Z, 10%N)] >>
      let* a := @ff_vda_queue_pop steady_platform in
      let* ta := read_pts a in
      let* b := @ff_vda_queue_pop steady_platform in
      let* tb := read_pts b in
      let* c := @ff_vda_queue_pop steady_platform in
      ret (ta, tb, c)) created_session)
  = Some (50%Z, 100%Z, NULL).
Proof. vm_compute. reflexivity. Qed.

(** C4. No loss.  Deliver N accepted frames with pairwise distinct
    timestamps (N at least 100) to a session with an empty queue, with
    memory available, then pop until empty: exactly N records come out,
    they are the delivered timestamp-image pairs, each once, and their
    timestamps increase strictly. *)
Theorem drain_after_inserts_complete `{Platform} (w0 : world) (inputs : list (Z * N)) :
  (∀ w, av_malloc_ok w = true) →
  session_ok w0 [] →
  Forall (λ f, accepted_image f.2) inputs →
  NoDup (map fst inputs) →
  100 ≤ length inputs →
  ∃ w1 rs w2,
    run_ops (map deliver inputs) w0 = Ok tt w1 ∧
    pop_all w1 = Ok rs w2 ∧
    queue (ctx w2) = NULL ∧
    length rs = length inputs ∧
    map payload rs ≡ₚ inputs ∧
    map r_pts rs ≡ₚ map fst inputs ∧
    StronglySorted Z.lt (map r_pts rs).
Proof.
  intros Hmem Hs Hacc Hnd _.
  destruct (run_deliver_all inputs w0 [] Hmem Hacc Hs) as (w1 & l & Hrun & Hs1 & Ho & Hperm).
  { constructor. }
  simpl in Hperm.
  assert (map r_pts l ≡ₚ map fst inputs) as Hpts.
  { rewrite <- Hperm. rewrite map_map. done. }
  exists w1, l, (queue_set NULL w1).
  split; [done |]. split; [by apply pop_all_spec |]. split; [done |].
  split; [by rewrite <- (Permutation_length Hperm), length_map |].
  split; [done |]. split; [done |].
  apply sorted_le_NoDup_lt; [exact Ho |]. by rewrite Hpts.
Qed.

Lemma hundred_frames_accepted :
  Forall (λ f : Z * N, @accepted_image steady_platform f.2) hundred_frames.
Proof.
  apply (Forall_impl (λ f : Z * N, f.2 ≠ NULL)).
  - refine (bool_decide_unpack _ _). vm_compute. exact I.
  - intros f Hf. by apply steady_accepts.
Defined.

Lemma hundred_frames_distinct : NoDup (map fst hundred_frames).
Proof. refine (bool_decide_unpack _ _). vm_compute. exact I. Defined.

Lemma drain_after_inserts_complete_witness :
  (∀ w, @av_malloc_ok steady_platform w = true) ∧
  session_ok created_session [] ∧
  Forall (λ f : Z * N, @accepted_image steady_platform f.2) hundred_frames ∧
  NoDup (map fst hundred_frames) ∧
  100 ≤ length hundred_frames ∧
  ∃ w1 rs w2,
    @run_ops steady_platform (map deliver hundred_frames) created_session = Ok tt w1 ∧
    @pop_all steady_platform w1 = Ok rs w2 ∧
    queue (ctx w2) = NULL ∧
    length rs = length hundred_frames ∧
    map payload rs ≡ₚ hundred_frames ∧
    map r_pts rs ≡ₚ map fst hundred_frames ∧
    StronglySorted Z.lt (map r_pts rs).
Proof.
  assert (∀ w, @av_malloc_ok steady_platform w = true) as Hmem by reflexivity.
  assert (session_ok created_session []) as Hs by (split; reflexivity).
  assert (100 ≤ length hundred_frames) as Hlen by (vm_compute; lia).
  split; [exact Hmem |]. split; [exact Hs |].
  split; [exact hundred_frames_accepted |]. split; [exact hundred_frames_distinct |].
  split; [exact Hlen |].
  exact (@drain_after_inserts_complete steady_platform created_session hundred_frames
           Hmem Hs hundred_frames_accepted hundred_frames_distinct Hlen).
Defined.

(** The hundred frames come out as 1, 2, ..., 100. *)
Example hundred_frames_drained :
  value_of
    ((@run_ops steady_platform (map deliver hundred_frames) >>
      let* rs := @pop_all steady_platform in ret (map r_pts rs)) created_session)
  = Some (map Z.of_nat (seq 1 100)).
Proof. vm_compute. reflexivity. Qed.

(** C5, as the code has it.  The format the callback insists on is the
    constant [kCVPixelFormatType_422YpCbCr8]; the session's configured
    [format] is not consulted.  When the image is absent or its pixel
    format is not that constant, the callback returns with the world
    untouched; a pop that follows behaves as the same pop would have
    without the callback, and in particular returns NULL on an empty
    queue. *)
Theorem callback_ignores_unusable_image `{Platform} (w : world)
    (user_info : option (gmap string Z)) (status infoFlags : Z) (image_buffer : N) :
  image_buffer = NULL ∨
  CVPixelBufferGetPixelFormatType image_buffer ≠ kCVPixelFormatType_422YpCbCr8 →
  vda_decoder_callback user_info status infoFlags image_buffer w = Ok tt w ∧
  (vda_decoder_callback user_info status infoFlags image_buffer >> ff_vda_queue_pop) w
    = ff_vda_queue_pop w ∧
  (queue (ctx w) = NULL →
   (vda_decoder_callback user_info status infoFlags image_buffer >> ff_vda_queue_pop) w
     = Ok NULL w).
Proof.
  intros Hbad.
  pose proof (vda_decoder_callback_drop w user_info status infoFlags image_buffer Hbad)
    as Hdrop.
  split; [exact Hdrop |]. split.
  - by run Hdrop.
  - intros Hq. run Hdrop. by apply ff_vda_queue_pop_empty.
Qed.

Lemma callback_ignores_unusable_image_witness :
  (NULL = NULL ∨
   @CVPixelBufferGetPixelFormatType steady_platform NULL ≠ kCVPixelFormatType_422YpCbCr8) ∧
  @vda_decoder_callback steady_platform None 0 0 NULL created_session
    = Ok tt created_session ∧
  (@vda_decoder_callback steady_platform None 0 0 NULL >> @ff_vda_queue_pop steady_platform)
    created_session
    = @ff_vda_queue_pop steady_platform created_session ∧
  (queue (ctx created_session) = NULL →
   (@vda_decoder_callback steady_platform None 0 0 NULL >> @ff_vda_queue_pop steady_platform)
     created_session
     = Ok NULL created_session).
Proof.
  assert (NULL = NULL ∨
          @CVPixelBufferGetPixelFormatType steady_platform NULL
            ≠ kCVPixelFormatType_422YpCbCr8) as Hbad by (left; reflexivity).
  split; [exact Hbad |].
  exact (@callback_ignores_unusable_image steady_platform created_session None 0%Z 0%Z NULL Hbad).
Defined.

(** C5, as stated, fails.  The session was configured with ['avc1'], the
    image is 2vuy: its format differs from the session's, yet the callback
    queues it and the next pop returns the frame. *)
Lemma callback_session_format_counterexample :
  @CVPixelBufferGetPixelFormatType steady_platform 10 ≠ format (ctx created_session) ∧
  @vda_decoder_callback steady_platform (vda_dictionary_with_pts 50) 0 0 10 created_session
    ≠ Ok tt created_session ∧
  value_of
    ((@vda_decoder_callback steady_platform (vda_dictionary_with_pts 50) 0 0 10 >>
      let* p := @ff_vda_queue_pop steady_platform in
      let* f := load p in ret (pts f, cv_buffer f)) created_session)
    = Some (50%Z, 10%N).
Proof.
  split; [| split].
  - vm_compute. discriminate.
  - intros Heq.
    apply (f_equal (λ r, match r with Ok _ w => queue (ctx w) | _ => NULL end)) in Heq.
    vm_compute in Heq. discriminate.
  - vm_compute. reflexivity.
Qed.

(** X17. Destroy drains a created session.  On a session whose queue is
    well formed and whose guard exists and is free, destroy returns, the
    queue is empty afterwards and every queued cell was given back.
    Without a decoder handle the platform is not asked and the result is 0;
    with one, the platform's teardown is asked first and its status is the
    result, success (0) or failure alike.  In both cases the image of every
    queued record is released, once each, in queue order. *)
Theorem destroy_drains_created_session `{Platform} (w : world) (l : list record) :
  session_ok w l →
  ∃ st w',
    ff_vda_destroy_decoder w = Ok st w' ∧
    queue (ctx w') = NULL ∧
    (∀ r, r ∈ l → frames w' !! r_addr r = None) ∧
    st = (if decide (decoder (ctx w) = NULL) then 0%Z
          else VDADecoderDestroy w (decoder (ctx w))) ∧
    trace w' = trace w ++
               (if decide (decoder (ctx w) = NULL) then []
                else [EvDecoderDestroy (decoder (ctx w))]) ++
               map (λ r, EvRelease (r_buf r)) l.
Proof.
  intros Hs.
  destruct (ff_vda_destroy_decoder_spec w l Hs) as (w' & Hrun & Hq & Hf & Ht).
  exists (destroy_status w), w'.
  split; [exact Hrun |]. split; [exact Hq |]. split; [| split].
  - intros r Hr. rewrite Hf. apply release_cells_lookup_freed.
    change (r_addr r ∈ r_addr <$> l). by apply list_elem_of_fmap_2.
  - unfold destroy_status.
    destruct (decide (decoder (ctx w) = NULL)) as [Hd | Hd].
    + by rewrite decide_False by (intros Hne; by apply Hne).
    + by rewrite decide_True.
  - rewrite Ht. unfold destroy_events, release_events.
    destruct (decide (decoder (ctx w) = NULL)) as [Hd | Hd].
    + by rewrite decide_False by (intros Hne; by apply Hne).
    + by rewrite decide_True.
Qed.

Lemma headless_session_ok : session_ok headless_session busy_records.
Proof.
  split; [| reflexivity].
  simpl. repeat (split; [done |]). eexists. split; [reflexivity |].
  repeat (split; [done |]). eexists. split; [reflexivity |].
  repeat (split; [done |]). eexists. split; [reflexivity |]. done.
Defined.

Lemma destroy_drains_created_session_witness :
  session_ok headless_session busy_records ∧
  ∃ st w',
    @ff_vda_destroy_decoder steady_platform headless_session = Ok st w' ∧
    queue (ctx w') = NULL ∧
    (∀ r, r ∈ busy_records → frames w' !! r_addr r = None) ∧
    st = 0%Z ∧
    trace w' = trace headless_session ++ [] ++ map (λ r, EvRelease (r_buf r)) busy_records.
Proof.
  split; [exact headless_session_ok |].
  exact (@destroy_drains_created_session steady_platform headless_session busy_records
           headless_session_ok).
Defined.

(** Teardown fails with -12470: the three frames are released all the same
    and the failure is returned. *)
Example destroy_failure_still_drains :
  @ff_vda_destroy_decoder steady_platform busy_session
  = Ok kVDADecoderHardwareNotSupportedErr
       (World (VdaContext 7 NULL NULL 640 480 avc1) ∅ ∅
          [EvRetain 12; EvRetain 11; EvRetain 13;
           EvDecoderDestroy 7; EvRelease 11; EvRelease 13; EvRelease 12]).
Proof. vm_compute. reflexivity. Qed.

(** No decoder handle: teardown is not requested, the queue is drained. *)
Example destroy_without_decoder :
  @ff_vda_destroy_decoder steady_platform headless_session
  = Ok 0%Z
       (World (VdaContext NULL NULL NULL 640 480 avc1) ∅ ∅
          [EvRelease 11; EvRelease 13; EvRelease 12]).
Proof. vm_compute. reflexivity. Qed.

(** C7. Submit.  [ff_vda_decoder_decode] always returns; it asks the
    platform once, with the first [bitstream_size] bytes and a token that
    carries [frame_pts], and returns the platform's status: a non-zero
    result exactly when the platform reported a failure, that very status
    then, and 0 otherwise.  Session, heap and guard are as before, so the
    queue stands for the same records. *)
Theorem decode_returns_status_keeps_queue `{Platform} (w : world)
    (bitstream : list byte) (bitstream_size frame_pts : Z) :
  ∃ st w',
    ff_vda_decoder_decode bitstream bitstream_size frame_pts w = Ok st w' ∧
    (decode_answer w bitstream bitstream_size frame_pts ≠ kVDADecoderNoErr →
       st = decode_answer w bitstream bitstream_size frame_pts ∧ st ≠ 0%Z) ∧
    (decode_answer w bitstream bitstream_size frame_pts = kVDADecoderNoErr → st = 0%Z) ∧
    ctx w' = ctx w ∧ frames w' = frames w ∧ mutexes w' = mutexes w ∧
    trace w' = trace w ++ [EvDecoderDecode (decoder (ctx w)) 0
                             (take (Z.to_nat bitstream_size) bitstream)
                             (vda_dictionary_with_pts frame_pts)] ∧
    (∀ l, session_ok w l → session_ok w' l).
Proof.
  pose proof (ff_vda_decoder_decode_spec w bitstream bitstream_size frame_pts) as Hrun.
  cbv zeta in Hrun.
  eexists _, _. split; [exact Hrun |].
  unfold decode_answer, kVDADecoderNoErr.
  split; [by intros Hne |]. split; [by intros Heq |].
  split; [done |]. split; [done |]. split; [done |]. split; [done |].
  intros l Hs. exact Hs.
Qed.

(** C8. Drain releases everything.  On a well-formed session holding the
    records [l], [vda_clear_queue] returns, the queue is empty, every cell
    of [l] is given back and nothing else is touched, and the calls to
    [CVPixelBufferRelease] are exactly one per record of [l], on that
    record's image, in queue order. *)
Theorem clear_queue_releases_each_once `{Platform} (w : world) (l : list record) :
  session_ok w l →
  ∃ w',
    vda_clear_queue w = Ok tt w' ∧
    queue (ctx w') = NULL ∧
    session_ok w' [] ∧
    trace w' = trace w ++ map (λ r, EvRelease (r_buf r)) l ∧
    (∀ r, r ∈ l → frames w' !! r_addr r = None) ∧
    (∀ a, a ∉ map r_addr l → frames w' !! a = frames w !! a).
Proof.
  intros Hs. eexists. split; [by apply vda_clear_queue_spec |].
  destruct Hs as [Hc Hm]. wsimpl.
  split; [done |]. split; [by split |]. split; [done |]. split.
  - intros r Hr. apply release_cells_lookup_freed.
    change (r_addr r ∈ r_addr <$> l). by apply list_elem_of_fmap_2.
  - intros a Ha. by apply release_cells_lookup_other.
Qed.

Lemma clear_queue_releases_each_once_witness :
  session_ok busy_session busy_records ∧
  ∃ w',
    @vda_clear_queue steady_platform busy_session = Ok tt w' ∧
    queue (ctx w') = NULL ∧
    session_ok w' [] ∧
    trace w' = trace busy_session ++ map (λ r, EvRelease (r_buf r)) busy_records ∧
    (∀ r, r ∈ busy_records → frames w' !! r_addr r = None) ∧
    (∀ a, a ∉ map r_addr busy_records → frames w' !! a = frames busy_session !! a).
Proof.
  split; [exact busy_session_ok |].
  exact (@clear_queue_releases_each_once steady_platform busy_session busy_records
           busy_session_ok).
Defined.

Example clear_queue_busy :
  @vda_clear_queue steady_platform busy_session
  = Ok tt (World (VdaContext 7 NULL 1 640 480 avc1) ∅ {[ 1%N := false ]}
             [EvRetain 12; EvRetain 11; EvRetain 13;
              EvRelease 11; EvRelease 13; EvRelease 12]).
Proof. vm_compute. reflexivity. Qed.

(** C9 does not hold of the code.  When [av_mallocz] returns NULL the
    callback does not drop the frame: its next statement,
    [new_frame->next_frame = NULL], writes through the NULL pointer. *)
Theorem callback_alloc_failure_is_fault :
  @vda_decoder_callback exhausted_platform (vda_dictionary_with_pts 50) 0 0 10
     created_session
  = Fault.
Proof.
  apply (@vda_decoder_callback_alloc_failure exhausted_platform).
  - split; [done | reflexivity].
  - reflexivity.
Qed.

(** C10. No token, timestamp 0.  With an accepted image and memory
    available, a callback whose token is NULL or lacks the pts key still
    builds a record and links it into the queue, with timestamp 0. *)
Theorem callback_without_pts_queues_at_zero `{Platform} (w : world) (l : list record)
    (user_info : option (gmap string Z)) (status infoFlags : Z) (image_buffer : N) :
  session_ok w l →
  accepted_image image_buffer → av_malloc_ok w = true →
  user_info = None ∨ (∃ d, user_info = Some d ∧ d !! FF_VDA_DECODER_PTS_KEY = None) →
  ∃ w',
    vda_decoder_callback user_info status infoFlags image_buffer w = Ok tt w' ∧
    session_ok w' (insert_record (Rec (new_addr w) 0 image_buffer) l) ∧
    Rec (new_addr w) 0 image_buffer ∈ insert_record (Rec (new_addr w) 0 image_buffer) l ∧
    length (insert_record (Rec (new_addr w) 0 image_buffer) l) = S (length l) ∧
    (∃ nx, frames w' !! new_addr w = Some (Frame 0 image_buffer nx)) ∧
    trace w' = trace w ++ [EvRetain image_buffer].
Proof.
  intros Hs Himg Hok Hinfo.
  assert (vda_pts_from_dictionary user_info = 0%Z) as Hpts.
  { destruct Hinfo as [-> | (d & -> & Hd)]; [done |].
    unfold vda_pts_from_dictionary. by rewrite Hd. }
  destruct (vda_decoder_callback_session w l user_info status infoFlags image_buffer
              Hs Himg Hok) as (w' & Hrun & Hs' & Ht & _).
  rewrite Hpts in Hs'.
  assert (Rec (new_addr w) 0 image_buffer ∈ insert_record (Rec (new_addr w) 0 image_buffer) l)
    as Hin.
  { rewrite insert_record_perm. apply elem_of_cons. by left. }
  exists w'. split; [exact Hrun |]. split; [exact Hs' |]. split; [exact Hin |].
  split; [apply insert_record_length |]. split; [| exact Ht].
  destruct Hs' as [Hc _].
  destruct (chain_lookup _ _ _ _ Hc Hin) as (_ & nx & Hl). by exists nx.
Qed.

Lemma callback_without_pts_queues_at_zero_witness :
  session_ok busy_session busy_records ∧
  @accepted_image steady_platform 14 ∧
  @av_malloc_ok steady_platform busy_session = true ∧
  ((None : option (gmap string Z)) = None ∨
   (∃ d, (None : option (gmap string Z)) = Some d ∧ d !! FF_VDA_DECODER_PTS_KEY = None)) ∧
  ∃ w',
    @vda_decoder_callback steady_platform None 0 0 14 busy_session = Ok tt w' ∧
    session_ok w' (insert_record (Rec (new_addr busy_session) 0 14) busy_records) ∧
    Rec (new_addr busy_session) 0 14
      ∈ insert_record (Rec (new_addr busy_session) 0 14) busy_records ∧
    length (insert_record (Rec (new_addr busy_session) 0 14) busy_records)
      = S (length busy_records) ∧
    (∃ nx, frames w' !! new_addr busy_session = Some (Frame 0 14 nx)) ∧
    trace w' = trace busy_session ++ [EvRetain 14].
Proof.
  assert (@accepted_image steady_platform 14) as Himg by (by apply steady_accepts).
  assert (@av_malloc_ok steady_platform busy_session = true) as Hok by reflexivity.
  assert ((None : option (gmap string Z)) = None ∨
          (∃ d, (None : option (gmap string Z)) = Some d ∧
                d !! FF_VDA_DECODER_PTS_KEY = None)) as Hinfo by (left; reflexivity).
  split; [exact busy_session_ok |]. split; [exact Himg |]. split; [exact Hok |].
  split; [exact Hinfo |].
  exact (@callback_without_pts_queues_at_zero steady_platform busy_session busy_records
           None 0%Z 0%Z 14%N busy_session_ok Himg Hok Hinfo).
Defined.

(** A token without the pts key: the frame goes to the front, timestamp 0. *)
Example callback_with_empty_token :
  value_of
    ((@vda_decoder_callback steady_platform (Some ∅) 0 0 14 >>
      let* rs := @pop_all steady_platform in ret (map payload rs)) busy_session)
  = Some [(0, 14%N); (50, 11%N); (50, 13%N); (100, 12%N)]%Z.
Proof. vm_compute. reflexivity. Qed.

(** ** Further properties of vda.c *)

Section Scripts.
Context `{Platform}.
Implicit Types (w : world) (l : list record) (r : record).

Lemma insert_record_addrs x l a :
  a ∈ map r_addr (insert_record x l) ↔ a = r_addr x ∨ a ∈ map r_addr l.
Proof.
  rewrite (Permutation_map r_addr (insert_record_perm x l)). simpl.
  apply elem_of_cons.
Qed.

(** What one step of a script does. *)
Lemma run_op_cases o w l :
  (∀ w, av_malloc_ok w = true) → session_ok w l →
  ∃ w' l', run_op o w = Ok tt w' ∧ session_ok w' l' ∧
    ((w' = w ∧ l' = l) ∨
     (∃ user_info image_buffer,
        accepted_image image_buffer ∧
        l' = insert_record (new_record w user_info image_buffer) l ∧
        trace w' = trace w ++ [EvRetain image_buffer] ∧
        mutexes w' = mutexes w ∧
        same_config (ctx w') (ctx w) ∧
        (∀ p, p ≠ new_addr w → p ∉ map r_addr l → frames w' !! p = frames w !! p)) ∨
     (∃ r, o = OpPop ∧ l = r :: l' ∧ w' = queue_set (head_addr l') w) ∨
     (∃ r, o = OpPopRelease ∧ l = r :: l' ∧ w' = released_head r (head_addr l') w)).
Proof.
  intros Hmem Hs. destruct o as [user_info status infoFlags image_buffer | |].
  - simpl run_op.
    destruct (decide (image_buffer = NULL)) as [Hnull | Hnull].
    { exists w, l. split; [apply vda_decoder_callback_drop; by left |].
      split; [done |]. by left. }
    destruct (decide (CVPixelBufferGetPixelFormatType image_buffer
                      = kCVPixelFormatType_422YpCbCr8)) as [Hfmt | Hfmt].
    + destruct (vda_decoder_callback_session w l user_info status infoFlags
                  image_buffer Hs (conj Hnull Hfmt) (Hmem w))
        as (w' & Hrun & Hs' & Ht & Hm & Hctx & Hframe).
      eexists w', _. split; [exact Hrun |]. split; [exact Hs' |].
      right. left. exists user_info, image_buffer.
      split; [by split |]. split; [done |]. split; [done |]. split; [done |].
      split; [| done].
      rewrite Hctx. unfold same_config, queue_set. wsimpl. done.
    + exists w, l. split; [apply vda_decoder_callback_drop; by right |].
      split; [done |]. by left.
  - simpl run_op. destruct l as [|r l].
    + exists w, []. destruct Hs as [Hc Hm]. simpl in Hc.
      split; [by run (ff_vda_queue_pop_empty _ Hc) |]. split; [by split |]. by left.
    + destruct (ff_vda_queue_pop_cons _ _ _ Hs) as [Hpop Hs'].
      eexists _, l. split; [by run Hpop |]. split; [done |].
      right. right. left. by exists r.
  - simpl run_op. destruct l as [|r l].
    + exists w, []. destruct Hs as [Hc Hm]. simpl in Hc.
      split; [by run (ff_vda_queue_pop_empty _ Hc) |]. split; [by split |]. by left.
    + destruct (ff_vda_queue_pop_cons _ _ _ Hs) as [Hpop [Hc' Hm']].
      destruct Hs as [Hc _].
      pose proof (chain_NoDup _ _ _ Hc) as Hnd.
      simpl in Hnd. apply NoDup_cons in Hnd as [Hrnin _].
      apply chain_cons_inv in Hc as (Hq & Hn & Hl & _).
      exists (released_head r (head_addr l) w), l.
      split; [| split].
      * run Hpop. rewrite Hq in Hn, Hl.
        exact (ff_vda_release_vda_frame_eq (queue_set (head_addr l) w) (r_addr r) _ Hn Hl).
      * split; [| exact Hm']. unfold released_head. wsimpl.
        by apply chain_delete_other.
      * right. right. right. by exists r.
Qed.

Lemma same_config_refl c : same_config c c.
Proof. by repeat split. Qed.

Lemma same_config_trans c1 c2 c3 :
  same_config c1 c2 → same_config c2 c3 → same_config c1 c3.
Proof.
  intros (? & ? & ? & ? & ?) (? & ? & ? & ? & ?).
  repeat split; congruence.
Qed.

Lemma same_config_queue_set q w : same_config (ctx (queue_set q w)) (ctx w).
Proof. by repeat split. Qed.

(** Steps change the head of the queue, the heap and the log, nothing
    else. *)
Lemma run_ops_same_config os : ∀ w l,
  (∀ w, av_malloc_ok w = true) →
  session_ok w l →
  ∃ w' l',
    run_ops os w = Ok tt w' ∧
    session_ok w' l' ∧
    same_config (ctx w') (ctx w) ∧
    mutexes w' = mutexes w.
Proof.
  induction os as [|o os IH]; intros w l Hmem Hs.
  - exists w, l. split; [done |]. split; [done |]. split; [apply same_config_refl | done].
  - destruct (run_op_cases o w l Hmem Hs) as (w1 & l1 & Hrun & Hs1 & Hcase).
    destruct (IH w1 l1 Hmem Hs1) as (w2 & l2 & Hrun2 & Hs2 & Hcfg & Hmx).
    exists w2, l2. split; [simpl; by run Hrun |]. split; [done |].
    destruct Hcase as [[-> ->] | [(u & b & _ & _ & _ & Hm1 & Hc1 & _)
                      | [(r & _ & _ & ->) | (r & _ & _ & ->)]]].
    + done.
    + split; [by eapply same_config_trans | congruence].
    + split; [| done]. eapply same_config_trans; [exact Hcfg |].
      apply same_config_queue_set.
    + split; [| done]. eapply same_config_trans; [exact Hcfg |].
      apply same_config_queue_set.
Qed.

End Scripts.

(** X1. A script never touches the configuration.  Whatever callbacks and
    pops run on a well-formed session (memory available), they all return,
    and afterwards the decoder handle, the pointer to the guard, width,
    height and format are what they were, and so is the state of every
    mutex: no step leaves the guard held. *)
Theorem script_keeps_config_and_guard `{Platform} (os : list op) (w : world)
    (l : list record) :
  (∀ w, av_malloc_ok w = true) →
  session_ok w l →
  ∃ w' l',
    run_ops os w = Ok tt w' ∧
    session_ok w' l' ∧
    same_config (ctx w') (ctx w) ∧
    mutexes w' = mutexes w.
Proof. intros Hmem Hs. by apply (run_ops_same_config os w l). Qed.

Lemma script_keeps_config_and_guard_witness :
  (∀ w, @av_malloc_ok steady_platform w = true) ∧
  session_ok busy_session busy_records ∧
  ∃ w' l',
    @run_ops steady_platform mixed_script busy_session = Ok tt w' ∧
    session_ok w' l' ∧
    same_config (ctx w') (ctx busy_session) ∧
    mutexes w' = mutexes busy_session.
Proof.
  assert (∀ w, @av_malloc_ok steady_platform w = true) as Hmem by reflexivity.
  split; [exact Hmem |]. split; [exact busy_session_ok |].
  exact (@script_keeps_config_and_guard steady_platform mixed_script busy_session
           busy_records Hmem busy_session_ok).
Defined.

(** X2. A script never touches a cell outside the queue.  A frame cell that
    is allocated but not linked into the queue (a frame the consumer popped
    and still holds) keeps its contents and stays outside the queue through
    any later callbacks, pops and releases of other frames: it is neither
    written, nor freed, nor handed out again by the allocator. *)
Theorem script_spares_cells_outside_queue `{Platform} (os : list op) (w : world)
    (l : list record) (a : N) (f : vda_frame) :
  (∀ w, av_malloc_ok w = true) →
  session_ok w l →
  a ∉ map r_addr l →
  frames w !! a = Some f →
  ∃ w' l',
    run_ops os w = Ok tt w' ∧
    session_ok w' l' ∧
    (a ∉ map r_addr l') ∧
    frames w' !! a = Some f.
Proof.
  intros Hmem. revert w l.
  induction os as [|o os IH]; intros w l Hs Ha Hf.
  - by exists w, l.
  - destruct (run_op_cases o w l Hmem Hs) as (w1 & l1 & Hrun & Hs1 & Hcase).
    assert ((a ∉ map r_addr l1) ∧ frames w1 !! a = Some f) as [Ha1 Hf1].
    { destruct Hcase as [[-> ->] | [(u & b & _ & -> & _ & _ & _ & Hframe)
                        | [(r & _ & -> & ->) | (r & _ & -> & ->)]]].
      - done.
      - assert (a ≠ new_addr w) as Hne.
        { intros ->. by rewrite new_addr_fresh in Hf. }
        split.
        + rewrite insert_record_addrs. intros [Heq | Hin]; [| done].
          by apply Hne.
        + by rewrite Hframe.
      - split; [| done]. intros Hin. apply Ha. simpl. apply elem_of_cons. by right.
      - simpl in Ha. apply not_elem_of_cons in Ha as [Hne Ha].
        split; [done |]. unfold released_head. wsimpl.
        by rewrite lookup_delete_ne. }
    destruct (IH w1 l1 Hs1 Ha1 Hf1) as (w2 & l2 & Hrun2 & Hs2 & Ha2 & Hf2).
    exists w2, l2. split; [simpl; by run Hrun |]. done.
Qed.

Lemma script_spares_cells_outside_queue_witness :
  (∀ w, @av_malloc_ok steady_platform w = true) ∧
  session_ok (queue_set 4 busy_session) [Rec 4 50 13; Rec 3 100 12] ∧
  (2%N ∉ map r_addr [Rec 4 50 13; Rec 3 100 12]) ∧
  frames (queue_set 4 busy_session) !! 2%N = Some (Frame 50 11 4) ∧
  ∃ w' l',
    @run_ops steady_platform mixed_script (queue_set 4 busy_session) = Ok tt w' ∧
    session_ok w' l' ∧
    (2%N ∉ map r_addr l') ∧
    frames w' !! 2%N = Some (Frame 50 11 4).
Proof.
  assert (∀ w, @av_malloc_ok steady_platform w = true) as Hmem by reflexivity.
  assert (session_ok (queue_set 4 busy_session) [Rec 4 50 13; Rec 3 100 12]) as Hs.
  { split; [| reflexivity].
    simpl. repeat (split; [done |]). eexists. split; [reflexivity |].
    repeat (split; [done |]). eexists. split; [reflexivity |]. done. }
  assert (2%N ∉ map r_addr [Rec 4 50 13; Rec 3 100 12]) as Ha.
  { simpl. intros Hin. apply elem_of_cons in Hin as [Heq | Hin]; [done |].
    apply elem_of_cons in Hin as [Heq | Hin]; [done |]. by apply not_elem_of_nil in Hin. }
  assert (frames (queue_set 4 busy_session) !! 2%N = Some (Frame 50 11 4)) as Hf
    by reflexivity.
  split; [exact Hmem |]. split; [exact Hs |]. split; [exact Ha |]. split; [exact Hf |].
  exact (@script_spares_cells_outside_queue steady_platform mixed_script
           (queue_set 4 busy_session) [Rec 4 50 13; Rec 3 100 12] 2%N (Frame 50 11 4)
           Hmem Hs Ha Hf).
Defined.

Section Books.
Context `{Platform}.
Implicit Types (w : world) (l : list record) (r : record).

Lemma retained_app t1 t2 : retained (t1 ++ t2) = retained t1 ++ retained t2.
Proof. apply omap_app. Qed.

Lemma released_app t1 t2 : released (t1 ++ t2) = released t1 ++ released t2.
Proof. apply omap_app. Qed.

Lemma released_release_events l : released (release_events l) = map r_buf l.
Proof. induction l as [|r l IH]; [done |]. simpl. by rewrite <- IH. Qed.

Lemma retained_release_events l : retained (release_events l) = [].
Proof. induction l as [|r l IH]; [done |]. simpl. exact IH. Qed.

Lemma retained_destroy_events w : retained (destroy_events w) = [].
Proof. unfold destroy_events. by destruct (decide _). Qed.

Lemma released_destroy_events w : released (destroy_events w) = [].
Proof. unfold destroy_events. by destruct (decide _). Qed.

(** A session that starts with an empty queue has its books in order. *)
Lemma tidy_start w0 : session_ok w0 [] → tidy w0 w0 [].
Proof.
  intros Hs. split; [done |]. split; [| split].
  - intros a Ha. by apply not_elem_of_nil in Ha.
  - done.
  - exists []. by rewrite app_nil_r.
Qed.

(** Deliveries and pop-and-release steps keep the books in order. *)
Lemma tidy_run_ops w0 os : ∀ w l,
  (∀ w, av_malloc_ok w = true) →
  Forall (λ o, o ≠ OpPop) os →
  tidy w0 w l →
  ∃ w' l', run_ops os w = Ok tt w' ∧ tidy w0 w' l'.
Proof.
  induction os as [|o os IH]; intros w l Hmem Hos Ht.
  - by exists w, l.
  - apply Forall_cons in Hos as [Ho Hos].
    destruct Ht as (Hs & Hfree & Hsame & t & Htr & Hbal).
    destruct (run_op_cases o w l Hmem Hs) as (w1 & l1 & Hrun & Hs1 & Hcase).
    assert (tidy w0 w1 l1) as Ht1.
    { destruct Hcase as [[-> ->] | [(u & b & _ & -> & Htr1 & _ & _ & Hframe)
                        | [(r & -> & _ & _) | (r & _ & -> & ->)]]].
      - split; [done |]. split; [done |]. split; [done |]. by exists t.
      - pose proof (new_addr_not_in_chain _ _ _ (proj1 Hs)) as Hnew.
        split; [done |]. split; [| split].
        + intros a Ha. apply insert_record_addrs in Ha as [-> | Ha]; [| by apply Hfree].
          simpl. rewrite <- Hsame by done. apply new_addr_fresh.
        + intros a Ha. rewrite insert_record_addrs in Ha.
          rewrite Hframe.
          * apply Hsame. intros Hin. apply Ha. by right.
          * intros Heq. apply Ha. by left.
          * intros Hin. apply Ha. by right.
        + exists (t ++ [EvRetain b]). split; [by rewrite Htr1, Htr, <- app_assoc |].
          rewrite retained_app, released_app. simpl. rewrite app_nil_r.
          rewrite Hbal.
          rewrite (Permutation_map r_buf (insert_record_perm _ l)). simpl.
          rewrite <- app_assoc. apply Permutation_app_head.
          symmetry. apply Permutation_cons_append.
      - done.
      - split; [done |]. split; [| split].
        + intros a Ha. apply Hfree. simpl. apply elem_of_cons. by right.
        + intros a Ha. unfold released_head. wsimpl.
          destruct (decide (a = r_addr r)) as [-> | Hne].
          * rewrite lookup_delete_eq. symmetry. apply Hfree.
            simpl. apply elem_of_cons. by left.
          * rewrite lookup_delete_ne by done. apply Hsame.
            simpl. intros Hin. apply elem_of_cons in Hin as [? | ?]; done.
        + exists (t ++ [EvRelease (r_buf r)]). unfold released_head. wsimpl.
          split; [by rewrite Htr, <- app_assoc |].
          rewrite retained_app, released_app. simpl. rewrite app_nil_r.
          rewrite Hbal. simpl. rewrite <- app_assoc. done. }
    destruct (IH w1 l1 Hmem Hos Ht1) as (w2 & l2 & Hrun2 & Ht2).
    exists w2, l2. split; [simpl; by run Hrun | done].
Qed.

(** The world [ff_vda_destroy_decoder] leaves behind. *)
Lemma ff_vda_destroy_decoder_world w l :
  session_ok w l →
  ff_vda_destroy_decoder w =
    Ok (destroy_status w)
       (World (VdaContext (decoder (ctx w)) NULL NULL
                          (width (ctx w)) (height (ctx w)) (format (ctx w)))
              (release_cells l (frames w))
              (if decide (queue_mutex (ctx w) ≠ NULL)
               then delete (queue_mutex (ctx w)) (mutexes w) else mutexes w)
              (trace w ++ destroy_events w ++ release_events l)).
Proof.
  intros Hs. unfold ff_vda_destroy_decoder.
  unfold get_ctx at 1. unfold bind at 1.
  set (w1 := with_trace (trace w ++ destroy_events w) w).
  erewrite bind_Ok with (a := destroy_status w) (w' := w1); cycle 1.
  { unfold destroy_status, destroy_events in *.
    destruct (decide (decoder (ctx w) ≠ NULL)); [done |].
    subst w1. unfold ret, with_trace. by rewrite app_nil_r, world_eta. }
  assert (session_ok w1 l) as Hs1 by exact Hs.
  run (vda_clear_queue_spec w1 l Hs1). clear Hs1. subst w1.
  unfold get_ctx at 1. unfold bind at 1. unfold queue_set. wsimpl.
  destruct Hs as [_ Hm].
  destruct (decide (queue_mutex (ctx w) ≠ NULL)) as [Hmx | Hmx].
  - erewrite bind_Ok; cycle 1.
    { unfold vda_lock_operation. unfold bind at 1. wsimpl. rewrite Hm.
      unfold set_queue_mutex. unfold bind at 1. wsimpl. reflexivity. }
    rewrite return_status_eq. by rewrite <- app_assoc.
  - unfold ret at 1. unfold bind at 1. rewrite return_status_eq.
    apply dec_stable in Hmx. rewrite Hmx. by rewrite <- app_assoc.
Qed.

Lemma release_cells_tidy w0 w l :
  tidy w0 w l → release_cells l (frames w) = frames w0.
Proof.
  intros (_ & Hfree & Hsame & _). apply map_eq. intros a.
  destruct (decide (a ∈ map r_addr l)) as [Hin | Hnin].
  - rewrite release_cells_lookup_freed by done. symmetry. by apply Hfree.
  - rewrite release_cells_lookup_other by done. by apply Hsame.
Qed.

End Books.

(** X3. No leak.  Start from a session with an empty queue, run any script
    of callbacks and pop-and-release steps (memory available), then destroy
    the session.  Everything returns; the frame heap is exactly what it was
    at the start, so every cell the callback allocated was freed; and among
    the platform calls made since the start, the images released are the
    images retained, each as often as it was retained. *)
Theorem session_leaves_nothing_behind `{Platform} (w0 : world) (os : list op) :
  (∀ w, av_malloc_ok w = true) →
  session_ok w0 [] →
  Forall (λ o, o ≠ OpPop) os →
  ∃ w1 st w2 t,
    run_ops os w0 = Ok tt w1 ∧
    ff_vda_destroy_decoder w1 = Ok st w2 ∧
    frames w2 = frames w0 ∧
    trace w2 = trace w0 ++ t ∧
    retained t ≡ₚ released t.
Proof.
  intros Hmem Hs Hos.
  destruct (tidy_run_ops w0 os w0 [] Hmem Hos (tidy_start w0 Hs)) as (w1 & l & Hrun & Ht).
  pose proof (release_cells_tidy _ _ _ Ht) as Hheap.
  destruct Ht as (Hs1 & _ & _ & t & Htr & Hbal).
  eexists w1, _, _, (t ++ destroy_events w1 ++ release_events l).
  split; [exact Hrun |].
  split; [by apply ff_vda_destroy_decoder_world |].
  wsimpl. split; [exact Hheap |]. split; [by rewrite Htr, <- app_assoc |].
  rewrite !retained_app, !released_app.
  rewrite retained_destroy_events, released_destroy_events.
  rewrite retained_release_events, released_release_events.
  simpl. by rewrite app_nil_r.
Qed.

Lemma tidy_script_no_pop : Forall (λ o, o ≠ OpPop) tidy_script.
Proof. unfold tidy_script, deliver. repeat constructor; discriminate. Defined.

Lemma session_leaves_nothing_behind_witness :
  (∀ w, @av_malloc_ok steady_platform w = true) ∧
  session_ok created_session [] ∧
  Forall (λ o, o ≠ OpPop) tidy_script ∧
  ∃ w1 st w2 t,
    @run_ops steady_platform tidy_script created_session = Ok tt w1 ∧
    @ff_vda_destroy_decoder steady_platform w1 = Ok st w2 ∧
    frames w2 = frames created_session ∧
    trace w2 = trace created_session ++ t ∧
    retained t ≡ₚ released t.
Proof.
  assert (∀ w, @av_malloc_ok steady_platform w = true) as Hmem by reflexivity.
  assert (session_ok created_session []) as Hs by (split; reflexivity).
  split; [exact Hmem |]. split; [exact Hs |]. split; [exact tidy_script_no_pop |].
  exact (@session_leaves_nothing_behind steady_platform created_session tidy_script
           Hmem Hs tidy_script_no_pop).
Defined.

(** The tidy script and a destroy, run: seven platform calls between
    create and the end, four retains and four releases. *)
Example tidy_script_trace :
  value_of ((@run_ops steady_platform tidy_script >>
             @ff_vda_destroy_decoder steady_platform >>
             fun w => Ok (trace w, map_to_list (frames w)) w) created_session)
  = Some ([EvRetain 10; EvRetain 11; EvRelease 11; EvRetain 12; EvRelease 12;
           EvRetain 13; EvDecoderDestroy 7; EvRelease 13; EvRelease 10], []).
Proof. vm_compute. reflexivity. Qed.

Section Stability.
Context `{Platform}.
Implicit Types (w : world) (l : list record) (r : record).

Lemma with_pts_app t (fs gs : list (Z * N)) :
  with_pts t (fs ++ gs) = with_pts t fs ++ with_pts t gs.
Proof. apply filter_app. Qed.

Lemma with_pts_later t l :
  Forall (λ x, (t < r_pts x)%Z) l → with_pts t (map payload l) = [].
Proof.
  induction l as [|x l IH]; intros Hall; [done |].
  apply Forall_cons in Hall as [Hx Hall]. simpl.
  unfold with_pts. rewrite filter_cons_False by (simpl; lia).
  by apply IH.
Qed.

(** Among the records with one timestamp, the new record comes last. *)
Lemma with_pts_insert t x l :
  ordered l →
  with_pts t (map payload (insert_record x l))
    = with_pts t (map payload l) ++ with_pts t [payload x].
Proof.
  intros Ho. destruct (insert_record_split x l Ho) as (l1 & l2 & -> & -> & H1 & H2).
  rewrite !map_app. simpl. rewrite !with_pts_app.
  change (payload x :: map payload l2) with ([payload x] ++ map payload l2).
  rewrite with_pts_app. rewrite <- app_assoc. f_equal.
  destruct (decide (r_pts x = t)) as [<- | Hne].
  - rewrite (with_pts_later _ _ H2). by rewrite app_nil_r.
  - unfold with_pts at 1 4. rewrite filter_cons_False by done.
    rewrite filter_nil. by rewrite app_nil_r.
Qed.

(** Delivering frames to an ordered queue: nothing is lost, the queue stays
    ordered, and frames with one timestamp line up behind the queued
    records with that timestamp, in the order they were delivered. *)
Lemma run_deliver_stable inputs : ∀ w l,
  (∀ w, av_malloc_ok w = true) →
  Forall (λ f, accepted_image f.2) inputs →
  session_ok w l → ordered l →
  ∃ w' l', run_ops (map deliver inputs) w = Ok tt w' ∧
           session_ok w' l' ∧ ordered l' ∧
           map payload l' ≡ₚ map payload l ++ inputs ∧
           ∀ t, with_pts t (map payload l')
                = with_pts t (map payload l) ++ with_pts t inputs.
Proof.
  induction inputs as [|[t b] inputs IH]; intros w l Hmem Hacc Hs Ho.
  - exists w, l. rewrite app_nil_r. split; [done |]. split; [done |].
    split; [done |]. split; [done |]. intros t. by rewrite app_nil_r.
  - apply Forall_cons in Hacc as [Hb Hacc]. simpl in Hb.
    destruct (vda_decoder_callback_session w l (vda_dictionary_with_pts t)
                kVDADecoderNoErr 0%Z b Hs Hb (Hmem w)) as (w1 & Hrun & Hs1 & _).
    rewrite vda_pts_roundtrip in Hs1.
    destruct (IH w1 _ Hmem Hacc Hs1 (insert_record_ordered _ _ Ho))
      as (w2 & l2 & Hrun2 & Hs2 & Ho2 & Hperm & Hstable).
    exists w2, l2. split; [simpl; by run Hrun |].
    split; [done |]. split; [done |]. split.
    + rewrite Hperm.
      rewrite (Permutation_map payload (insert_record_perm _ l)).
      simpl. unfold payload at 1. simpl.
      by rewrite Permutation_middle.
    + intros t'. rewrite Hstable. rewrite with_pts_insert by done.
      rewrite <- app_assoc. f_equal.
      change ((t, b) :: inputs) with ([(t, b)] ++ inputs).
      by rewrite with_pts_app.
Qed.

Lemma strictly_sorted_by_pts (fs : list (Z * N)) :
  StronglySorted Z.lt (map fst fs) →
  StronglySorted (λ f g : Z * N, (f.1 < g.1)%Z) fs.
Proof.
  induction fs as [|f fs IH]; simpl; intros Hs; [constructor |].
  apply StronglySorted_inv in Hs as [Hs Hall].
  constructor; [by apply IH |].
  by rewrite List.Forall_map in Hall.
Qed.

End Stability.

(** X4. Stable ordering with repeated timestamps.  Deliver any accepted
    frames, timestamps repeated or not, to a session with an empty queue
    (memory available) and pop until empty.  Every delivered frame comes
    out once, none is merged or dropped; timestamps do not decrease; and
    for every timestamp the frames that carry it come out in the order in
    which they were delivered. *)
Theorem drain_is_stable_sort `{Platform} (w0 : world) (inputs : list (Z * N)) :
  (∀ w, av_malloc_ok w = true) →
  session_ok w0 [] →
  Forall (λ f, accepted_image f.2) inputs →
  ∃ w1 rs w2,
    run_ops (map deliver inputs) w0 = Ok tt w1 ∧
    pop_all w1 = Ok rs w2 ∧
    map payload rs ≡ₚ inputs ∧
    StronglySorted Z.le (map r_pts rs) ∧
    ∀ t, with_pts t (map payload rs) = with_pts t inputs.
Proof.
  intros Hmem Hs Hacc.
  destruct (run_deliver_stable inputs w0 [] Hmem Hacc Hs)
    as (w1 & l & Hrun & Hs1 & Ho & Hperm & Hstable).
  { constructor. }
  exists w1, l, (queue_set NULL w1).
  split; [done |]. split; [by apply pop_all_spec |].
  split; [exact Hperm |]. split; [exact Ho |]. exact Hstable.
Qed.

Lemma repeated_frames_accepted :
  Forall (λ f : Z * N, @accepted_image steady_platform f.2) repeated_frames.
Proof. unfold repeated_frames. repeat constructor; done. Defined.

Lemma drain_is_stable_sort_witness :
  (∀ w, @av_malloc_ok steady_platform w = true) ∧
  session_ok created_session [] ∧
  Forall (λ f : Z * N, @accepted_image steady_platform f.2) repeated_frames ∧
  ∃ w1 rs w2,
    @run_ops steady_platform (map deliver repeated_frames) created_session = Ok tt w1 ∧
    @pop_all steady_platform w1 = Ok rs w2 ∧
    map payload rs ≡ₚ repeated_frames ∧
    StronglySorted Z.le (map r_pts rs) ∧
    ∀ t, with_pts t (map payload rs) = with_pts t repeated_frames.
Proof.
  assert (∀ w, @av_malloc_ok steady_platform w = true) as Hmem by reflexivity.
  assert (session_ok created_session []) as Hs by (split; reflexivity).
  split; [exact Hmem |]. split; [exact Hs |]. split; [exact repeated_frames_accepted |].
  exact (@drain_is_stable_sort steady_platform created_session repeated_frames
           Hmem Hs repeated_frames_accepted).
Defined.

Example repeated_frames_drained :
  value_of
    ((@run_ops steady_platform (map deliver repeated_frames) >>
      let* rs := @pop_all steady_platform in ret (map payload rs)) created_session)
  = Some [(20, 11%N); (20, 13%N); (30, 15%N); (50, 10%N); (50, 12%N); (50, 14%N)]%Z.
Proof. vm_compute. reflexivity. Qed.

(** X5. With distinct timestamps the order of arrival does not matter.
    Two deliveries of the same accepted frames, in any two orders, to the
    same session with an empty queue fill the queue with the same sequence
    of frames: popping until empty returns the same timestamps and images
    in the same order. *)
Theorem arrival_order_is_forgotten `{Platform} (w0 : world)
    (inputs1 inputs2 : list (Z * N)) :
  (∀ w, av_malloc_ok w = true) →
  session_ok w0 [] →
  Forall (λ f, accepted_image f.2) inputs1 →
  NoDup (map fst inputs1) →
  inputs1 ≡ₚ inputs2 →
  ∃ w1 rs1 w1' w2 rs2 w2',
    run_ops (map deliver inputs1) w0 = Ok tt w1 ∧ pop_all w1 = Ok rs1 w1' ∧
    run_ops (map deliver inputs2) w0 = Ok tt w2 ∧ pop_all w2 = Ok rs2 w2' ∧
    map payload rs1 = map payload rs2.
Proof.
  intros Hmem Hs Hacc1 Hnd Hperm.
  assert (Forall (λ f, accepted_image f.2) inputs2) as Hacc2 by (by rewrite <- Hperm).
  destruct (run_deliver_stable inputs1 w0 [] Hmem Hacc1 Hs)
    as (w1 & l1 & Hrun1 & Hs1 & Ho1 & Hp1 & _); [constructor |].
  destruct (run_deliver_stable inputs2 w0 [] Hmem Hacc2 Hs)
    as (w2 & l2 & Hrun2 & Hs2 & Ho2 & Hp2 & _); [constructor |].
  simpl in Hp1, Hp2.
  exists w1, l1, (queue_set NULL w1), w2, l2, (queue_set NULL w2).
  split; [done |]. split; [by apply pop_all_spec |].
  split; [done |]. split; [by apply pop_all_spec |].
  assert (∀ l inputs, ordered l → map payload l ≡ₚ inputs → NoDup (map fst inputs) →
            StronglySorted (λ f g : Z * N, (f.1 < g.1)%Z) (map payload l)) as Hstrict.
  { intros l inputs Ho Hp Hn.
    apply strictly_sorted_by_pts.
    rewrite map_map. simpl.
    apply sorted_le_NoDup_lt; [exact Ho |].
    change (NoDup (map (λ x, (payload x).1) l)). rewrite <- (map_map payload fst).
    by rewrite Hp. }
  apply (StronglySorted_unique_strong (λ f g : Z * N, (f.1 < g.1)%Z)).
  - intros f g _ _ Hfg Hgf. lia.
  - by eapply Hstrict.
  - eapply Hstrict; [done | done |]. by rewrite <- Hperm.
  - by rewrite Hp1, Hp2.
Qed.

Lemma arrival_order_is_forgotten_witness :
  (∀ w, @av_malloc_ok steady_platform w = true) ∧
  session_ok created_session [] ∧
  Forall (λ f : Z * N, @accepted_image steady_platform f.2) hundred_frames ∧
  NoDup (map fst hundred_frames) ∧
  hundred_frames ≡ₚ reverse hundred_frames ∧
  ∃ w1 rs1 w1' w2 rs2 w2',
    @run_ops steady_platform (map deliver hundred_frames) created_session = Ok tt w1 ∧
    @pop_all steady_platform w1 = Ok rs1 w1' ∧
    @run_ops steady_platform (map deliver (reverse hundred_frames)) created_session
      = Ok tt w2 ∧
    @pop_all steady_platform w2 = Ok rs2 w2' ∧
    map payload rs1 = map payload rs2.
Proof.
  assert (∀ w, @av_malloc_ok steady_platform w = true) as Hmem by reflexivity.
  assert (session_ok created_session []) as Hs by (split; reflexivity).
  assert (hundred_frames ≡ₚ reverse hundred_frames) as Hperm
    by (symmetry; apply reverse_Permutation).
  split; [exact Hmem |]. split; [exact Hs |]. split; [exact hundred_frames_accepted |].
  split; [exact hundred_frames_distinct |]. split; [exact Hperm |].
  exact (@arrival_order_is_forgotten steady_platform created_session hundred_frames
           (reverse hundred_frames) Hmem Hs hundred_frames_accepted
           hundred_frames_distinct Hperm).
Defined.

Section Lifecycle.
Context `{Platform}.
Implicit Types (w : world) (l : list record) (r : record).

(** Without a guard the callback cannot queue anything: it either fails to
    allocate or locks a pointer that is no mutex. *)
Lemma vda_decoder_callback_no_guard w user_info status infoFlags image_buffer :
  accepted_image image_buffer →
  mutexes w !! queue_mutex (ctx w) = None →
  vda_decoder_callback user_info status infoFlags image_buffer w = Fault.
Proof.
  intros Himg Hm.
  destruct (av_malloc_ok w) eqn:Hok;
    [| by apply vda_decoder_callback_alloc_failure].
  destruct Himg as [Himg Hfmt].
  pose proof (new_addr_not_null w) as Hn.
  unfold vda_decoder_callback.
  rewrite decide_False by done.
  rewrite decide_False by (intros Hne; by apply Hne).
  run (av_mallocz_eq _ Hok).
  erewrite bind_Ok; cycle 1.
  { apply write_next_frame_eq; [done |]. wsimpl. apply lookup_insert_eq. }
  wsimpl. rewrite insert_insert_eq.
  erewrite bind_Ok; cycle 1.
  { unfold CVPixelBufferRetain. unfold emit at 1. unfold bind at 1 2. unfold ret at 1.
    wsimpl. apply write_cv_buffer_eq; [done |]. wsimpl. apply lookup_insert_eq. }
  wsimpl. rewrite insert_insert_eq.
  erewrite bind_Ok; cycle 1.
  { apply write_pts_eq; [done |]. wsimpl. apply lookup_insert_eq. }
  wsimpl. rewrite insert_insert_eq.
  unfold bind at 1. unfold vda_lock_operation at 1.
  unfold get_ctx at 1. unfold bind at 1 2. unfold pthread_mutex_lock. wsimpl.
  by rewrite Hm.
Qed.

Lemma vda_clear_queue_no_guard w :
  mutexes w !! queue_mutex (ctx w) = None → vda_clear_queue w = Fault.
Proof.
  intros Hm. unfold vda_clear_queue.
  unfold bind at 1. unfold vda_lock_operation at 1.
  unfold get_ctx at 1. unfold bind at 1 2. unfold pthread_mutex_lock.
  by rewrite Hm.
Qed.

Lemma ff_vda_destroy_decoder_no_guard w :
  mutexes w !! queue_mutex (ctx w) = None → ff_vda_destroy_decoder w = Fault.
Proof.
  intros Hm. unfold ff_vda_destroy_decoder.
  unfold get_ctx at 1. unfold bind at 1.
  destruct (decide (decoder (ctx w) ≠ NULL)).
  - unfold emit at 1. unfold bind at 1 2 3. unfold ret at 1.
    rewrite vda_clear_queue_no_guard; [done |]. exact Hm.
  - unfold ret at 1. unfold bind at 1 2.
    by rewrite vda_clear_queue_no_guard.
Qed.

End Lifecycle.

(** X6. What destroy leaves behind.  On a well-formed session whose guard
    pointer is not NULL, destroy sets the queue and the guard pointer to
    NULL and gives the guard's memory back, while [vda_ctx->decoder] keeps
    the handle that was just destroyed.  A pop on the destroyed session
    returns NULL and changes nothing. *)
Theorem destroy_resets_queue_and_guard `{Platform} (w : world) (l : list record) :
  session_ok w l →
  queue_mutex (ctx w) ≠ NULL →
  ∃ st w',
    ff_vda_destroy_decoder w = Ok st w' ∧
    queue (ctx w') = NULL ∧
    queue_mutex (ctx w') = NULL ∧
    decoder (ctx w') = decoder (ctx w) ∧
    mutexes w' = delete (queue_mutex (ctx w)) (mutexes w) ∧
    ff_vda_queue_pop w' = Ok NULL w'.
Proof.
  intros Hs Hmx. eexists _, _.
  split; [by apply ff_vda_destroy_decoder_world |].
  wsimpl. rewrite decide_True by done.
  split; [done |]. split; [done |]. split; [done |]. split; [done |].
  by apply ff_vda_queue_pop_empty.
Qed.

Lemma busy_session_guard : queue_mutex (ctx busy_session) ≠ NULL.
Proof. done. Defined.

Lemma destroy_resets_queue_and_guard_witness :
  session_ok busy_session busy_records ∧
  queue_mutex (ctx busy_session) ≠ NULL ∧
  ∃ st w',
    @ff_vda_destroy_decoder steady_platform busy_session = Ok st w' ∧
    queue (ctx w') = NULL ∧
    queue_mutex (ctx w') = NULL ∧
    decoder (ctx w') = decoder (ctx busy_session) ∧
    mutexes w' = delete (queue_mutex (ctx busy_session)) (mutexes busy_session) ∧
    @ff_vda_queue_pop steady_platform w' = Ok NULL w'.
Proof.
  split; [exact busy_session_ok |]. split; [exact busy_session_guard |].
  exact (@destroy_resets_queue_and_guard steady_platform busy_session busy_records
           busy_session_ok busy_session_guard).
Defined.

(** X7. No use after destroy.  Once a well-formed session (guard pointer
    not NULL, no mutex at address NULL) has been destroyed, its guard is
    gone: a late callback with an accepted image and a second destroy both
    lock a pointer that is no mutex, which is undefined behaviour. *)
Theorem use_after_destroy_is_fault `{Platform} (w : world) (l : list record)
    (user_info : option (gmap string Z)) (status infoFlags : Z) (image_buffer : N) :
  session_ok w l →
  queue_mutex (ctx w) ≠ NULL →
  mutexes w !! NULL = None →
  accepted_image image_buffer →
  (ff_vda_destroy_decoder >>
   vda_decoder_callback user_info status infoFlags image_buffer) w = Fault ∧
  (ff_vda_destroy_decoder >> ff_vda_destroy_decoder) w = Fault.
Proof.
  intros Hs Hmx Hnull Himg.
  pose proof (ff_vda_destroy_decoder_world w l Hs) as Hrun.
  rewrite decide_True in Hrun by done.
  split; run Hrun.
  - apply vda_decoder_callback_no_guard; [done |]. wsimpl.
    by rewrite lookup_delete_ne.
  - apply ff_vda_destroy_decoder_no_guard. wsimpl.
    by rewrite lookup_delete_ne.
Qed.

Lemma use_after_destroy_is_fault_witness :
  session_ok busy_session busy_records ∧
  queue_mutex (ctx busy_session) ≠ NULL ∧
  mutexes busy_session !! NULL = None ∧
  @accepted_image steady_platform 14 ∧
  (@ff_vda_destroy_decoder steady_platform >>
   @vda_decoder_callback steady_platform (vda_dictionary_with_pts 50) 0 0 14)
    busy_session = Fault ∧
  (@ff_vda_destroy_decoder steady_platform >> @ff_vda_destroy_decoder steady_platform)
    busy_session = Fault.
Proof.
  assert (mutexes busy_session !! NULL = None) as Hnull by reflexivity.
  assert (@accepted_image steady_platform 14) as Himg by (by apply steady_accepts).
  split; [exact busy_session_ok |]. split; [exact busy_session_guard |].
  split; [exact Hnull |]. split; [exact Himg |].
  exact (@use_after_destroy_is_fault steady_platform busy_session busy_records
           (vda_dictionary_with_pts 50) 0%Z 0%Z 14%N
           busy_session_ok busy_session_guard Hnull Himg).
Defined.

(** X8. Releasing a frame.  [ff_vda_release_vda_frame] on a live frame
    releases the frame's image once and gives the cell back, touching
    nothing else; on NULL it does nothing; and releasing the same frame a
    second time reads a cell that is no longer allocated. *)
Theorem release_frees_exactly_once (w : world) (p : N) (f : vda_frame) :
  p ≠ NULL →
  frames w !! p = Some f →
  ff_vda_release_vda_frame p w
    = Ok tt (World (ctx w) (delete p (frames w)) (mutexes w)
                   (trace w ++ [EvRelease (cv_buffer f)])) ∧
  (ff_vda_release_vda_frame p >> ff_vda_release_vda_frame p) w = Fault ∧
  ff_vda_release_vda_frame NULL w = Ok tt w.
Proof.
  intros Hn Hf.
  pose proof (ff_vda_release_vda_frame_eq w p f Hn Hf) as Hrun.
  split; [exact Hrun |]. split; [| done].
  run Hrun. unfold ff_vda_release_vda_frame. rewrite decide_True by done.
  unfold read_cv_buffer, load. unfold bind at 1 2.
  rewrite decide_False by done. wsimpl. by rewrite lookup_delete_eq.
Qed.

Lemma release_frees_exactly_once_witness :
  2%N ≠ NULL ∧
  frames busy_session !! 2%N = Some (Frame 50 11 4) ∧
  ff_vda_release_vda_frame 2 busy_session
    = Ok tt (World (ctx busy_session) (delete 2%N (frames busy_session))
                   (mutexes busy_session)
                   (trace busy_session ++ [EvRelease (cv_buffer (Frame 50 11 4))])) ∧
  (ff_vda_release_vda_frame 2 >>
   ff_vda_release_vda_frame 2) busy_session = Fault ∧
  ff_vda_release_vda_frame NULL busy_session = Ok tt busy_session.
Proof.
  assert (2%N ≠ NULL) as Hn by done.
  assert (frames busy_session !! 2%N = Some (Frame 50 11 4)) as Hf by reflexivity.
  split; [exact Hn |]. split; [exact Hf |].
  exact (release_frees_exactly_once busy_session 2%N (Frame 50 11 4) Hn Hf).
Defined.

Section CreateSpecs.
Context `{Platform} `{Registrar}.
Implicit Types (w : world) (l : list record).

Lemma new_guard_not_null w : new_guard w ≠ NULL.
Proof.
  unfold new_guard. intros Heq.
  apply (is_fresh ({[NULL]} ∪ dom (mutexes w))). rewrite Heq. set_solver.
Qed.

Lemma new_guard_fresh w : mutexes w !! new_guard w = None.
Proof.
  apply not_elem_of_dom. unfold new_guard. intros Hin.
  apply (is_fresh ({[NULL]} ∪ dom (mutexes w))). set_solver.
Qed.

Lemma lock_create_eq w :
  av_malloc_ok w = true →
  vda_lock_operation AV_LOCK_CREATE w = Ok 0%Z (with_guard w).
Proof. intros Hok. unfold vda_lock_operation. by rewrite Hok. Qed.

Lemma lock_create_fail_eq w :
  av_malloc_ok w = false →
  vda_lock_operation AV_LOCK_CREATE w = Ok 1%Z (without_guard w).
Proof. intros Hok. unfold vda_lock_operation. by rewrite Hok. Qed.

Lemma lock_destroy_eq w :
  mutexes w !! queue_mutex (ctx w) = Some false →
  vda_lock_operation AV_LOCK_DESTROY w =
    Ok 0%Z (World (VdaContext (decoder (ctx w)) (queue (ctx w)) NULL
                              (width (ctx w)) (height (ctx w)) (format (ctx w)))
                  (frames w) (delete (queue_mutex (ctx w)) (mutexes w)) (trace w)).
Proof. intros Hm. unfold vda_lock_operation. by rewrite Hm. Qed.

(** The lock manager cannot be registered: create gives up at once. *)
Lemma ff_vda_create_decoder_refused w extradata extradata_size :
  av_lockmgr_register w ≠ 0%Z →
  ff_vda_create_decoder extradata extradata_size w = Ok (-1)%Z w.
Proof.
  intros Hreg. unfold ff_vda_create_decoder. unfold bind at 1.
  by rewrite decide_True.
Qed.

(** Create after the guard was made ([w1]), whatever became of it. *)
Lemma ff_vda_create_decoder_after_guard w w1 r extradata extradata_size :
  av_lockmgr_register w = 0%Z →
  vda_lock_operation AV_LOCK_CREATE w = Ok r w1 →
  ff_vda_create_decoder extradata extradata_size w =
    Ok (VDADecoderCreate w1 (create_request w1 extradata extradata_size)).1
       (with_decoder (VDADecoderCreate w1 (create_request w1 extradata extradata_size)) w1).
Proof.
  intros Hreg Hlock. unfold ff_vda_create_decoder. unfold bind at 1.
  rewrite Hreg. rewrite decide_False by (intros Hne; by apply Hne).
  run Hlock. unfold get_ctx at 1. unfold bind at 1.
  unfold bind at 1. unfold set_queue_mutex, set_decoder. unfold bind at 1.
  fold (create_request w1 extradata extradata_size).
  by rewrite return_status_eq.
Qed.

End CreateSpecs.

(** X9. Create gives up when the lock manager cannot be registered: it
    returns -1 and leaves the world as it found it; no guard is made and
    the session holds no decoder. *)
Theorem create_refused_changes_nothing `{Platform} `{Registrar} (w : world)
    (extradata : list byte) (extradata_size : Z) :
  av_lockmgr_register w ≠ 0%Z →
  ff_vda_create_decoder extradata extradata_size w = Ok (-1)%Z w.
Proof. intros Hreg. by apply ff_vda_create_decoder_refused. Qed.

Lemma create_refused_changes_nothing_witness :
  @av_lockmgr_register refusing_registrar blank_session ≠ 0%Z ∧
  @ff_vda_create_decoder steady_platform refusing_registrar [] 0 blank_session
    = Ok (-1)%Z blank_session.
Proof.
  assert (@av_lockmgr_register refusing_registrar blank_session ≠ 0%Z) as Hreg by done.
  split; [exact Hreg |].
  exact (@create_refused_changes_nothing steady_platform refusing_registrar
           blank_session [] 0%Z Hreg).
Defined.

(** X10. Create opens a well-formed session.  With the lock manager
    registered and memory for the guard, create returns the platform's
    status (0 exactly when the platform reports no error) and leaves a
    session whose guard exists at a new, non-NULL address and is free, whose
    decoder handle is the platform's, and whose queue, frames, log, width,
    height and format are untouched; the platform was asked with the
    session's height, width and format and the first [extradata_size] bytes
    of [extradata].  So a context that enters with a well-formed queue (an
    empty one, after zero-initialisation) leaves create in the state all
    other functions expect; this holds even when the platform refuses. *)
Theorem create_opens_session `{Platform} `{Registrar} (w : world) (l : list record)
    (extradata : list byte) (extradata_size : Z) :
  av_lockmgr_register w = 0%Z →
  av_malloc_ok w = true →
  chain (frames w) (queue (ctx w)) l →
  ∃ st w',
    ff_vda_create_decoder extradata extradata_size w = Ok st w' ∧
    session_ok w' l ∧
    (st, decoder (ctx w'))
      = VDADecoderCreate (with_guard w)
          (Config (height (ctx w)) (width (ctx w)) (format (ctx w))
                  (take (Z.to_nat extradata_size) extradata)) ∧
    queue_mutex (ctx w') ≠ NULL ∧
    mutexes w !! queue_mutex (ctx w') = None ∧
    mutexes w' = <[queue_mutex (ctx w') := false]> (mutexes w) ∧
    queue (ctx w') = queue (ctx w) ∧ frames w' = frames w ∧ trace w' = trace w ∧
    width (ctx w') = width (ctx w) ∧ height (ctx w') = height (ctx w) ∧
    format (ctx w') = format (ctx w).
Proof.
  intros Hreg Hok Hc. eexists _, _.
  split; [by apply (ff_vda_create_decoder_after_guard w _ _ _ _ Hreg (lock_create_eq w Hok)) |].
  unfold with_decoder, with_guard, create_request. wsimpl.
  split; [split; [exact Hc | apply lookup_insert_eq] |].
  split; [by destruct (VDADecoderCreate _ _) |].
  split; [apply new_guard_not_null |]. split; [apply new_guard_fresh |].
  done.
Qed.

Lemma create_opens_session_witness :
  @av_lockmgr_register willing_registrar blank_session = 0%Z ∧
  @av_malloc_ok steady_platform blank_session = true ∧
  chain (frames blank_session) (queue (ctx blank_session)) [] ∧
  ∃ st w',
    @ff_vda_create_decoder steady_platform willing_registrar [] 0 blank_session
      = Ok st w' ∧
    session_ok w' [] ∧
    (st, decoder (ctx w'))
      = @VDADecoderCreate willing_registrar (with_guard blank_session)
          (Config (height (ctx blank_session)) (width (ctx blank_session))
                  (format (ctx blank_session)) (take (Z.to_nat 0) [])) ∧
    queue_mutex (ctx w') ≠ NULL ∧
    mutexes blank_session !! queue_mutex (ctx w') = None ∧
    mutexes w' = <[queue_mutex (ctx w') := false]> (mutexes blank_session) ∧
    queue (ctx w') = queue (ctx blank_session) ∧ frames w' = frames blank_session ∧
    trace w' = trace blank_session ∧
    width (ctx w') = width (ctx blank_session) ∧
    height (ctx w') = height (ctx blank_session) ∧
    format (ctx w') = format (ctx blank_session).
Proof.
  assert (@av_lockmgr_register willing_registrar blank_session = 0%Z) as Hreg
    by reflexivity.
  assert (@av_malloc_ok steady_platform blank_session = true) as Hok by reflexivity.
  assert (chain (frames blank_session) (queue (ctx blank_session)) []) as Hc
    by reflexivity.
  split; [exact Hreg |]. split; [exact Hok |]. split; [exact Hc |].
  exact (@create_opens_session steady_platform willing_registrar blank_session []
           [] 0%Z Hreg Hok Hc).
Defined.

(** Create on the blank context gives the created session used above. *)
Example create_blank_session :
  @ff_vda_create_decoder steady_platform willing_registrar [] 0 blank_session
  = Ok 0%Z created_session.
Proof. vm_compute. reflexivity. Qed.

(** X11. Create does not notice a missing guard.  When the guard cannot be
    allocated, create still asks the platform and returns its status, 0 if
    the platform reports no error, although [vda_ctx->queue_mutex] is NULL.
    The session it leaves is not usable: with no mutex at address NULL,
    every callback with an accepted image locks a pointer that is no mutex
    (or fails to allocate), which is undefined behaviour. *)
Theorem create_without_guard_reports_success `{Platform} `{Registrar} (w : world)
    (extradata : list byte) (extradata_size : Z) :
  av_lockmgr_register w = 0%Z →
  av_malloc_ok w = false →
  mutexes w !! NULL = None →
  ∃ st w',
    ff_vda_create_decoder extradata extradata_size w = Ok st w' ∧
    (st, decoder (ctx w'))
      = VDADecoderCreate (without_guard w)
          (Config (height (ctx w)) (width (ctx w)) (format (ctx w))
                  (take (Z.to_nat extradata_size) extradata)) ∧
    queue_mutex (ctx w') = NULL ∧
    mutexes w' = mutexes w ∧
    ∀ user_info status infoFlags image_buffer,
      accepted_image image_buffer →
      vda_decoder_callback user_info status infoFlags image_buffer w' = Fault.
Proof.
  intros Hreg Hok Hnull. eexists _, _.
  split; [by apply (ff_vda_create_decoder_after_guard w _ _ _ _ Hreg
                      (lock_create_fail_eq w Hok)) |].
  unfold with_decoder, without_guard, create_request. wsimpl.
  split; [by destruct (VDADecoderCreate _ _) |].
  split; [done |]. split; [done |].
  intros user_info status infoFlags image_buffer Himg.
  by apply vda_decoder_callback_no_guard.
Qed.

Lemma create_without_guard_reports_success_witness :
  @av_lockmgr_register willing_registrar blank_session = 0%Z ∧
  @av_malloc_ok exhausted_platform blank_session = false ∧
  mutexes blank_session !! NULL = None ∧
  ∃ st w',
    @ff_vda_create_decoder exhausted_platform willing_registrar [] 0 blank_session
      = Ok st w' ∧
    (st, decoder (ctx w'))
      = @VDADecoderCreate willing_registrar (without_guard blank_session)
          (Config (height (ctx blank_session)) (width (ctx blank_session))
                  (format (ctx blank_session)) (take (Z.to_nat 0) [])) ∧
    queue_mutex (ctx w') = NULL ∧
    mutexes w' = mutexes blank_session ∧
    ∀ user_info status infoFlags image_buffer,
      @accepted_image exhausted_platform image_buffer →
      @vda_decoder_callback exhausted_platform user_info status infoFlags image_buffer w'
        = Fault.
Proof.
  assert (@av_lockmgr_register willing_registrar blank_session = 0%Z) as Hreg
    by reflexivity.
  assert (@av_malloc_ok exhausted_platform blank_session = false) as Hok by reflexivity.
  assert (mutexes blank_session !! NULL = None) as Hnull by reflexivity.
  split; [exact Hreg |]. split; [exact Hok |]. split; [exact Hnull |].
  exact (@create_without_guard_reports_success exhausted_platform willing_registrar
           blank_session [] 0%Z Hreg Hok Hnull).
Defined.

(** X12. A whole session gives back all it took.  On a context with an
    empty queue, create (lock manager registered), then any script of
    callbacks and pop-and-release steps, then destroy, with memory
    available throughout: all three return; the frame heap and the mutex
    memory are exactly what they were before create; queue and guard
    pointer are NULL; and the images released since create are the images
    retained since create, each as often as it was retained. *)
Theorem whole_session_gives_back_all `{Platform} `{Registrar} (w0 : world)
    (extradata : list byte) (extradata_size : Z) (os : list op) :
  (∀ w, av_malloc_ok w = true) →
  av_lockmgr_register w0 = 0%Z →
  queue (ctx w0) = NULL →
  Forall (λ o, o ≠ OpPop) os →
  ∃ st0 w1 w2 st w3 t,
    ff_vda_create_decoder extradata extradata_size w0 = Ok st0 w1 ∧
    run_ops os w1 = Ok tt w2 ∧
    ff_vda_destroy_decoder w2 = Ok st w3 ∧
    frames w3 = frames w0 ∧
    mutexes w3 = mutexes w0 ∧
    queue (ctx w3) = NULL ∧ queue_mutex (ctx w3) = NULL ∧
    trace w3 = trace w0 ++ t ∧
    retained t ≡ₚ released t.
Proof.
  intros Hmem Hreg Hq Hos.
  pose proof (ff_vda_create_decoder_after_guard w0 _ _ extradata extradata_size Hreg
                (lock_create_eq w0 (Hmem w0))) as Hcreate.
  set (w1 := with_decoder _ (with_guard w0)) in Hcreate.
  assert (session_ok w1 []) as Hs1.
  { split; [exact Hq |]. subst w1. unfold with_decoder, with_guard. wsimpl.
    apply lookup_insert_eq. }
  destruct (tidy_run_ops w1 os w1 [] Hmem Hos (tidy_start w1 Hs1)) as (w2 & l & Hrun & Ht).
  destruct (run_ops_same_config os w1 [] Hmem Hs1)
    as (w2' & l' & Hrun' & _ & (_ & Hgp & _) & Hmx).
  rewrite Hrun in Hrun'. injection Hrun' as <-.
  pose proof (release_cells_tidy _ _ _ Ht) as Hheap.
  destruct Ht as (Hs2 & _ & _ & t & Htr & Hbal).
  eexists _, w1, w2, _, _, (t ++ destroy_events w2 ++ release_events l).
  split; [exact Hcreate |]. split; [exact Hrun |].
  split; [by apply ff_vda_destroy_decoder_world |].
  wsimpl. split; [exact Hheap |]. split.
  { rewrite Hgp, Hmx. subst w1. unfold with_decoder, with_guard. wsimpl.
    rewrite decide_True by apply new_guard_not_null.
    apply delete_insert_id, new_guard_fresh. }
  split; [done |]. split; [done |].
  split; [by rewrite Htr, <- app_assoc |].
  rewrite !retained_app, !released_app.
  rewrite retained_destroy_events, released_destroy_events.
  rewrite retained_release_events, released_release_events.
  simpl. by rewrite app_nil_r.
Qed.

Lemma whole_session_gives_back_all_witness :
  (∀ w, @av_malloc_ok steady_platform w = true) ∧
  @av_lockmgr_register willing_registrar blank_session = 0%Z ∧
  queue (ctx blank_session) = NULL ∧
  Forall (λ o, o ≠ OpPop) tidy_script ∧
  ∃ st0 w1 w2 st w3 t,
    @ff_vda_create_decoder steady_platform willing_registrar [] 0 blank_session
      = Ok st0 w1 ∧
    @run_ops steady_platform tidy_script w1 = Ok tt w2 ∧
    @ff_vda_destroy_decoder steady_platform w2 = Ok st w3 ∧
    frames w3 = frames blank_session ∧
    mutexes w3 = mutexes blank_session ∧
    queue (ctx w3) = NULL ∧ queue_mutex (ctx w3) = NULL ∧
    trace w3 = trace blank_session ++ t ∧
    retained t ≡ₚ released t.
Proof.
  assert (∀ w, @av_malloc_ok steady_platform w = true) as Hmem by reflexivity.
  assert (@av_lockmgr_register willing_registrar blank_session = 0%Z) as Hreg
    by reflexivity.
  assert (queue (ctx blank_session) = NULL) as Hq by reflexivity.
  split; [exact Hmem |]. split; [exact Hreg |]. split; [exact Hq |].
  split; [exact tidy_script_no_pop |].
  exact (@whole_session_gives_back_all steady_platform willing_registrar blank_session
           [] 0%Z tidy_script Hmem Hreg Hq tidy_script_no_pop).
Defined.

(** X13. The life of the guard.  With memory for it, creating, obtaining,
    releasing and destroying the guard through [vda_lock_operation] all
    return 0 and leave the mutex memory as it was, with the guard pointer
    NULL; obtaining the guard a second time without releasing it waits. *)
Theorem guard_protocol_returns_zero `{Platform} (w : world) :
  av_malloc_ok w = true →
  (let* a := vda_lock_operation AV_LOCK_CREATE in
   let* b := vda_lock_operation AV_LOCK_OBTAIN in
   let* c := vda_lock_operation AV_LOCK_RELEASE in
   let* d := vda_lock_operation AV_LOCK_DESTROY in
   ret (a, b, c, d)) w
    = Ok (0, 0, 0, 0)%Z (without_guard w) ∧
  (vda_lock_operation AV_LOCK_CREATE >>
   vda_lock_operation AV_LOCK_OBTAIN >>
   vda_lock_operation AV_LOCK_OBTAIN) w = Blocked.
Proof.
  intros Hok.
  pose proof (new_guard_fresh w) as Hfresh.
  assert (mutexes (with_guard w) !! queue_mutex (ctx (with_guard w)) = Some false) as Hfree.
  { unfold with_guard. wsimpl. apply lookup_insert_eq. }
  split.
  - run (lock_create_eq w Hok). run (lock_obtain_eq _ Hfree).
    erewrite bind_Ok; cycle 1.
    { apply lock_release_eq. unfold with_guard. wsimpl. apply lookup_insert_eq. }
    erewrite bind_Ok; cycle 1.
    { apply lock_destroy_eq. unfold with_guard. wsimpl. apply lookup_insert_eq. }
    unfold ret, with_guard, without_guard. wsimpl.
    rewrite !insert_insert_eq. by rewrite delete_insert_id.
  - run (lock_create_eq w Hok). run (lock_obtain_eq _ Hfree).
    unfold vda_lock_operation, get_ctx. unfold bind at 1 2.
    unfold pthread_mutex_lock, with_guard. wsimpl.
    by rewrite lookup_insert_eq.
Qed.

Lemma guard_protocol_returns_zero_witness :
  @av_malloc_ok steady_platform blank_session = true ∧
  (let* a := @vda_lock_operation steady_platform AV_LOCK_CREATE in
   let* b := @vda_lock_operation steady_platform AV_LOCK_OBTAIN in
   let* c := @vda_lock_operation steady_platform AV_LOCK_RELEASE in
   let* d := @vda_lock_operation steady_platform AV_LOCK_DESTROY in
   ret (a, b, c, d)) blank_session
    = Ok (0, 0, 0, 0)%Z (without_guard blank_session) ∧
  (@vda_lock_operation steady_platform AV_LOCK_CREATE >>
   @vda_lock_operation steady_platform AV_LOCK_OBTAIN >>
   @vda_lock_operation steady_platform AV_LOCK_OBTAIN) blank_session = Blocked.
Proof.
  assert (@av_malloc_ok steady_platform blank_session = true) as Hok by reflexivity.
  split; [exact Hok |].
  exact (@guard_protocol_returns_zero steady_platform blank_session Hok).
Defined.

(** X14. Draining twice is draining once.  On a well-formed session a
    second [vda_clear_queue] right after the first finds the queue empty
    and changes nothing: no image is released a second time. *)
Theorem clear_queue_is_idempotent `{Platform} (w : world) (l : list record) :
  session_ok w l →
  (vda_clear_queue >> vda_clear_queue) w = vda_clear_queue w.
Proof.
  intros Hs.
  pose proof (vda_clear_queue_spec w l Hs) as Hrun.
  rewrite Hrun. run Hrun.
  rewrite (vda_clear_queue_spec _ []); [| split; [done | exact (proj2 Hs)]].
  unfold release_events, release_cells, queue_set. wsimpl. simpl.
  by rewrite app_nil_r.
Qed.

Lemma clear_queue_is_idempotent_witness :
  session_ok busy_session busy_records ∧
  (@vda_clear_queue steady_platform >> @vda_clear_queue steady_platform) busy_session
    = @vda_clear_queue steady_platform busy_session.
Proof.
  split; [exact busy_session_ok |].
  exact (@clear_queue_is_idempotent steady_platform busy_session busy_records
           busy_session_ok).
Defined.

(** X15. The timestamp travels in the token.  Whatever else the token
    dictionary holds, the callback queues the frame with the number found
    under [FF_VDA_DECODER_PTS_KEY]; for the token that
    [vda_dictionary_with_pts] builds from [frame_pts], as
    [ff_vda_decoder_decode] does, that number is [frame_pts]. *)
Theorem callback_reads_pts_from_token `{Platform} (w : world) (l : list record)
    (d : gmap string Z) (t : Z) (status infoFlags : Z) (image_buffer : N) :
  session_ok w l →
  accepted_image image_buffer → av_malloc_ok w = true →
  d !! FF_VDA_DECODER_PTS_KEY = Some t →
  vda_pts_from_dictionary (vda_dictionary_with_pts t) = t ∧
  ∃ w',
    vda_decoder_callback (Some d) status infoFlags image_buffer w = Ok tt w' ∧
    session_ok w' (insert_record (Rec (new_addr w) t image_buffer) l) ∧
    (∃ nx, frames w' !! new_addr w = Some (Frame t image_buffer nx)).
Proof.
  intros Hs Himg Hok Hd. split; [apply vda_pts_roundtrip |].
  destruct (vda_decoder_callback_session w l (Some d) status infoFlags image_buffer
              Hs Himg Hok) as (w' & Hrun & Hs' & _).
  assert (vda_pts_from_dictionary (Some d) = t) as Hpts.
  { unfold vda_pts_from_dictionary. by rewrite Hd. }
  rewrite Hpts in Hs'.
  exists w'. split; [exact Hrun |]. split; [exact Hs' |].
  destruct Hs' as [Hc _].
  assert (Rec (new_addr w) t image_buffer ∈ insert_record (Rec (new_addr w) t image_buffer) l)
    as Hin.
  { rewrite insert_record_perm. apply elem_of_cons. by left. }
  destruct (chain_lookup _ _ _ _ Hc Hin) as (_ & nx & Hl). by exists nx.
Qed.

Lemma callback_reads_pts_from_token_witness :
  session_ok busy_session busy_records ∧
  @accepted_image steady_platform 14 ∧
  @av_malloc_ok steady_platform busy_session = true ∧
  (<["other" := 7%Z]> {[ FF_VDA_DECODER_PTS_KEY := 70%Z ]} : gmap string Z)
    !! FF_VDA_DECODER_PTS_KEY = Some 70%Z ∧
  vda_pts_from_dictionary (vda_dictionary_with_pts 70) = 70%Z ∧
  ∃ w',
    @vda_decoder_callback steady_platform
      (Some (<["other" := 7%Z]> {[ FF_VDA_DECODER_PTS_KEY := 70%Z ]})) 0 0 14 busy_session
      = Ok tt w' ∧
    session_ok w' (insert_record (Rec (new_addr busy_session) 70 14) busy_records) ∧
    (∃ nx, frames w' !! new_addr busy_session = Some (Frame 70 14 nx)).
Proof.
  assert (@accepted_image steady_platform 14) as Himg by (by apply steady_accepts).
  assert (@av_malloc_ok steady_platform busy_session = true) as Hok by reflexivity.
  assert ((<["other" := 7%Z]> {[ FF_VDA_DECODER_PTS_KEY := 70%Z ]} : gmap string Z)
            !! FF_VDA_DECODER_PTS_KEY = Some 70%Z) as Hd by reflexivity.
  split; [exact busy_session_ok |]. split; [exact Himg |]. split; [exact Hok |].
  split; [exact Hd |].
  exact (@callback_reads_pts_from_token steady_platform busy_session busy_records
           _ 70%Z 0%Z 0%Z 14%N busy_session_ok Himg Hok Hd).
Defined.

(** X16. Pop does not wait for earlier frames.  On a session with an empty
    queue, a frame that is delivered and popped before a second frame
    arrives is handed out first, whatever the two timestamps are: the
    consumer gets timestamp [t1] and then [t2] even when [t2] is the
    earlier one.  The queue orders what it holds, not what is still to
    come. *)
Theorem pop_returns_what_is_queued `{Platform} (w0 : world) (t1 t2 : Z) (b1 b2 : N) :
  (∀ w, av_malloc_ok w = true) →
  session_ok w0 [] →
  accepted_image b1 → accepted_image b2 →
  ∃ w',
    (run_op (deliver (t1, b1)) >>
     let* p1 := ff_vda_queue_pop in
     let* f1 := load p1 in
     run_op (deliver (t2, b2)) >>
     let* p2 := ff_vda_queue_pop in
     let* f2 := load p2 in
     ret ((pts f1, cv_buffer f1), (pts f2, cv_buffer f2))) w0
    = Ok ((t1, b1), (t2, b2)) w' ∧
    session_ok w' [].
Proof.
  intros Hmem Hs Hb1 Hb2.
  destruct (vda_decoder_callback_session w0 [] (vda_dictionary_with_pts t1)
              kVDADecoderNoErr 0%Z b1 Hs Hb1 (Hmem w0)) as (w1 & Hrun1 & Hs1 & _).
  rewrite vda_pts_roundtrip in Hs1. simpl insert_record in Hs1.
  destruct (ff_vda_queue_pop_cons _ _ _ Hs1) as [Hpop1 Hs1'].
  pose proof Hs1 as [Hc1 _]. apply chain_cons_inv in Hc1 as (Hq1 & Hn1 & Hl1 & _).
  rewrite Hq1 in Hn1, Hl1. clear Hq1.
  simpl head_addr in *. set (w2 := queue_set NULL w1) in *.
  destruct (vda_decoder_callback_session w2 [] (vda_dictionary_with_pts t2)
              kVDADecoderNoErr 0%Z b2 Hs1' Hb2 (Hmem w2)) as (w3 & Hrun3 & Hs3 & _).
  rewrite vda_pts_roundtrip in Hs3. simpl insert_record in Hs3.
  destruct (ff_vda_queue_pop_cons _ _ _ Hs3) as [Hpop3 Hs3'].
  pose proof Hs3 as [Hc3 _]. apply chain_cons_inv in Hc3 as (Hq3 & Hn3 & Hl3 & _).
  rewrite Hq3 in Hn3, Hl3. clear Hq3.
  simpl head_addr in *.
  exists (queue_set NULL w3). split; [| exact Hs3'].
  simpl run_op. run Hrun1. run Hpop1.
  run (load_eq w2 _ _ Hn1 Hl1).
  run Hrun3. run Hpop3.
  run (load_eq (queue_set NULL w3) _ _ Hn3 Hl3).
  done.
Qed.

Lemma pop_returns_what_is_queued_witness :
  (∀ w, @av_malloc_ok steady_platform w = true) ∧
  session_ok created_session [] ∧
  @accepted_image steady_platform 10 ∧ @accepted_image steady_platform 11 ∧
  ∃ w',
    (@run_op steady_platform (deliver (100%Z, 10%N)) >>
     let* p1 := @ff_vda_queue_pop steady_platform in
     let* f1 := load p1 in
     @run_op steady_platform (deliver (50%Z, 11%N)) >>
     let* p2 := @ff_vda_queue_pop steady_platform in
     let* f2 := load p2 in
     ret ((pts f1, cv_buffer f1), (pts f2, cv_buffer f2))) created_session
    = Ok ((100%Z, 10%N), (50%Z, 11%N)) w' ∧
    session_ok w' [].
Proof.
  assert (∀ w, @av_malloc_ok steady_platform w = true) as Hmem by reflexivity.
  assert (session_ok created_session []) as Hs by (split; reflexivity).
  assert (@accepted_image steady_platform 10) as Hb1 by (by apply steady_accepts).
  assert (@accepted_image steady_platform 11) as Hb2 by (by apply steady_accepts).
  split; [exact Hmem |]. split; [exact Hs |]. split; [exact Hb1 |]. split; [exact Hb2 |].
  exact (@pop_returns_what_is_queued steady_platform created_session 100%Z 50%Z 10%N 11%N
           Hmem Hs Hb1 Hb2).
Defined.

(** C6 does not hold of the code.  Destroy expects that the guard may be
    missing: it tests [queue_mutex] for NULL before [AV_LOCK_DESTROY]
    (vda.c:215).  But the drain before it, [vda_clear_queue], obtains the
    guard without that test (vda.c:90), so on a session without a guard
    destroy locks a NULL pointer instead of draining and returning: on a
    context that was never created, after a create that the lock manager
    refused, and after a create that could not allocate the guard. *)
Theorem destroy_without_guard_is_fault :
  @ff_vda_destroy_decoder steady_platform blank_session = Fault ∧
  (@ff_vda_create_decoder steady_platform refusing_registrar [] 0 >>
   @ff_vda_destroy_decoder steady_platform) blank_session = Fault ∧
  (@ff_vda_create_decoder exhausted_platform willing_registrar [] 0 >>
   @ff_vda_destroy_decoder exhausted_platform) blank_session = Fault.
Proof.
  split; [| split].
  - by apply (@ff_vda_destroy_decoder_no_guard steady_platform).
  - erewrite bind_Ok;
      [| by apply (@ff_vda_create_decoder_refused steady_platform refusing_registrar)].
    by apply (@ff_vda_destroy_decoder_no_guard steady_platform).
  - erewrite bind_Ok;
      [| by apply (@ff_vda_create_decoder_after_guard exhausted_platform willing_registrar
                     blank_session _ _ [] 0%Z eq_refl
                     (@lock_create_fail_eq exhausted_platform blank_session eq_refl))].
    by apply (@ff_vda_destroy_decoder_no_guard exhausted_platform).
Qed.
